(** * django_select2.forms: the Select2 widgets

    A shallow embedding of [django_select2/forms.py] (release 4.3.1): the
    light mixin [Select2Mixin], the heavy mixin [HeavySelect2Mixin], the tag
    widget and the auto-heavy mixin [AutoHeavySelect2Mixin].

    Python objects are records, dictionaries are [gmap]s, sets are [gset]s,
    exceptions are values of [exn], and a method is a function in the monad
    [M], which threads the receiver [self], the heap of mutable lists and
    the cache, and keeps the state reached when an exception is raised. *)

From Stdlib Require Import ZArith List Ascii String.
From Stdlib Require Import DecimalString DecimalN DecimalPos.
From stdpp Require Import base option list gmap strings pretty.

Open Scope string_scope.
Open Scope Z_scope.

(** ** Exceptions and results *)

Inductive exn :=
| KeyError (key : string)
| TypeError
| ValueError
| IndexError
| RuntimeError
| AttributeError
| NotImplementedError (msg : string)
| NoReverseMatch (view : string).

Inductive result (A : Type) :=
| Ok (a : A)
| Raise (e : exn).
Arguments Ok {A} a.
Arguments Raise {A} e.

Definition is_ok {A} (r : result A) : bool :=
  match r with Ok _ => true | Raise _ => false end.

(** ** Strings *)

(** The double quote and the line feed, as one-character strings. *)
Definition dquote : string := String (ascii_of_nat 34) EmptyString.
Definition newline : string := String (ascii_of_nat 10) EmptyString.

(** [sep.join(l)] *)
Fixpoint join (sep : string) (l : list string) : string :=
  match l with
  | [] => EmptyString
  | [s] => s
  | s :: rest => s +:+ sep +:+ join sep rest
  end.

(** The characters of a string, each as a one-character string: what
    iterating over a Python string yields. *)
Fixpoint chars (s : string) : list string :=
  match s with
  | EmptyString => []
  | String a rest => String a EmptyString :: chars rest
  end.

(** [t] occurs in [s]. *)
Definition occurs_in (t s : string) : Prop :=
  exists pre post, s = pre +:+ t +:+ post.

(** ** Attribute dictionaries *)

(** The values the widgets put into an HTML attribute dictionary: text,
    the integers 2 and 1 of [data-minimumInputLength], the list of
    [data-tokenSeparators] and the lazy URL of [reverse_lazy]. *)
Inductive attr_value :=
| AStr (s : string)
| AInt (z : Z)
| AList (l : list string)
| ALazyUrl (view : string).

Abbreviation attrs_t := (gmap string attr_value).

(** [d.setdefault(k, v)] *)
Definition setdefault (k : string) (v : attr_value) (d : attrs_t) : attrs_t :=
  match d !! k with
  | Some _ => d
  | None => <[k := v]> d
  end.

(** [dict(d, **kw)] and [d.update(kw)]: the entries of [kw] win. *)
Definition dict_update (d kw : attrs_t) : attrs_t := kw ∪ d.

(** ** Querysets, models and classes *)

(** A record of the database, as the text of its fields, and a queryset
    as the rows it evaluates to. *)
Abbreviation row := (gmap string string).
Abbreviation QuerySet := (list row).

(** A model, as far as the widgets use it: [model._default_manager.all()]. *)
Record Model := { default_manager_all : QuerySet }.

(** Addresses of the mutable lists of the heap. *)
Abbreviation loc := positive.

(** The widget classes of [forms.py]. *)
Inductive widget_base :=
| Select2Widget
| Select2MultipleWidget
| HeavySelect2Widget
| HeavySelect2MultipleWidget
| HeavySelect2TagWidget
| AutoHeavySelect2Widget
| AutoHeavySelect2MultipleWidget
| AutoHeavySelect2TagWidget.

Definition base_name (b : widget_base) : string :=
  match b with
  | Select2Widget => "Select2Widget"
  | Select2MultipleWidget => "Select2MultipleWidget"
  | HeavySelect2Widget => "HeavySelect2Widget"
  | HeavySelect2MultipleWidget => "HeavySelect2MultipleWidget"
  | HeavySelect2TagWidget => "HeavySelect2TagWidget"
  | AutoHeavySelect2Widget => "AutoHeavySelect2Widget"
  | AutoHeavySelect2MultipleWidget => "AutoHeavySelect2MultipleWidget"
  | AutoHeavySelect2TagWidget => "AutoHeavySelect2TagWidget"
  end.

(** [HeavySelect2Mixin] is among the bases of the class. *)
Definition is_heavy (b : widget_base) : bool :=
  match b with
  | Select2Widget | Select2MultipleWidget => false
  | _ => true
  end.

(** [AutoHeavySelect2Mixin] is among the bases of the class. *)
Definition is_auto (b : widget_base) : bool :=
  match b with
  | AutoHeavySelect2Widget | AutoHeavySelect2MultipleWidget
  | AutoHeavySelect2TagWidget => true
  | _ => false
  end.

(** [HeavySelect2TagWidget] is the class or among its bases. *)
Definition is_tag (b : widget_base) : bool :=
  match b with
  | HeavySelect2TagWidget | AutoHeavySelect2TagWidget => true
  | _ => false
  end.

(** [allow_multiple_selected]: [False] on [forms.Select], [True] on
    [forms.SelectMultiple]. *)
Definition allow_multiple_selected (b : widget_base) : bool :=
  match b with
  | Select2Widget | HeavySelect2Widget | AutoHeavySelect2Widget => false
  | _ => true
  end.

(** A class object: one of the classes of [forms.py] or a subclass of one,
    with its name and the class attributes of [AutoHeavySelect2Mixin] as
    the class sees them. [search_fields] is a reference: every instance
    that does not get its own list shares the list of its class. *)
Record pyclass := {
  cls_name : string;
  cls_base : widget_base;
  cls_model : option Model;
  cls_queryset : option QuerySet;
  cls_search_fields : loc;
  cls_max_results : Z
}.

(** The list object created by [search_fields = []] in the body of
    [AutoHeavySelect2Mixin]. *)
Definition mixin_search_fields : loc := 1%positive.

(** The classes of [forms.py] themselves: the class attributes are those of
    lines 153 to 156. *)
Definition library_class (b : widget_base) : pyclass :=
  {| cls_name := base_name b;
     cls_base := b;
     cls_model := None;
     cls_queryset := None;
     cls_search_fields := mixin_search_fields;
     cls_max_results := 25 |}.

(** ** Widget instances *)

(** A widget object. [wid] is [id(self)]. The attributes that only the
    heavy or the auto-heavy classes set are read by their methods only. *)
Record widget := {
  wid : N;
  wclass : pyclass;
  attrs : attrs_t;
  choices : list (string * string);
  is_required : bool;
  data_view : string;
  userGetValTextFuncName : string;
  widget_id : option string;
  model : option Model;
  queryset : option QuerySet;
  search_fields : loc;
  max_results : Z
}.

Definition class_name (w : widget) : string := cls_name (wclass w).

Definition set_widget_id (s : string) (w : widget) : widget :=
  {| wid := wid w; wclass := wclass w; attrs := attrs w; choices := choices w;
     is_required := is_required w; data_view := data_view w;
     userGetValTextFuncName := userGetValTextFuncName w;
     widget_id := Some s;
     model := model w; queryset := queryset w;
     search_fields := search_fields w; max_results := max_results w |}.

(** What a call may pass for [extra_attrs]. *)
Inductive pyobj :=
| PyNone
| PyDict (d : attrs_t)
| PyWidget (w : widget).

(** ** The state and the monad of methods *)

Record st := {
  self : widget;
  heap : gmap loc (list string);
  cache : gmap string widget;
  now : Z
}.

Definition M (A : Type) : Type := st -> result A * st.

Definition ret {A} (a : A) : M A := fun s => (Ok a, s).
Definition raise {A} (e : exn) : M A := fun s => (Raise e, s).
Definition bind {A B} (m : M A) (k : A -> M B) : M B :=
  fun s =>
    match m s with
    | (Ok a, s') => k a s'
    | (Raise e, s') => (Raise e, s')
    end.

Notation "x <- m ;; k" := (bind m (fun x => k))
  (at level 100, m at next level, right associativity,
   format "'[v' x  <-  m  ;;  '/' k ']'").
Notation "m ;;; k" := (bind m (fun _ => k))
  (at level 100, right associativity).

Definition get_self : M widget := fun s => (Ok (self s), s).
Definition get_now : M Z := fun s => (Ok (now s), s).

Definition with_self (w : widget) (s : st) : st :=
  {| self := w; heap := heap s; cache := cache s; now := now s |}.

Definition put_self (w : widget) : M unit :=
  fun s => (Ok tt, with_self w s).

Definition with_heap (h : gmap loc (list string)) (s : st) : st :=
  {| self := self s; heap := h; cache := cache s; now := now s |}.

(** [cache.set(key, value)] *)
Definition cache_set (key : string) (w : widget) : M unit :=
  fun s => (Ok tt, {| self := self s; heap := heap s;
                      cache := <[key := w]> (cache s); now := now s |}).

(** The list stored at an address; an address that holds no list reads as
    the empty list. *)
Definition deref (l : loc) : M (list string) := fun s => (Ok (heap s !!! l), s).

(** [lst.pop()]: removes and returns the last element. *)
Definition list_pop (l : loc) : M string :=
  xs <- deref l ;;
  match last xs with
  | None => raise IndexError
  | Some x =>
      fun s => (Ok x, with_heap (<[l := removelast xs]> (heap s)) s)
  end.

(** ** Values of the rendering and of the query *)

(** A selected value as the form hands it over: text, or an integer such as
    a primary key. *)
Inductive selected_value :=
| SStr (s : string)
| SInt (z : Z).

(** [force_text(v)] *)
Definition force_text (v : selected_value) : string :=
  match v with
  | SStr s => s
  | SInt z => pretty z
  end.

(** [a, b = s] for a string [s]: it takes exactly two characters; fewer
    or more are a [ValueError]. *)
Definition unpack2 (s : string) : result (string * string) :=
  match chars s with
  | [a; b] => Ok (a, b)
  | _ => Raise ValueError
  end.

(** [django.db.models.Q]: a keyword lookup, or the disjunction [a | b]. *)
Inductive Q :=
| Q_kw (lookup term : string)
| Q_or (a b : Q).

(** What a name of the [reduce] lambda may hold: a field name or a [Q]. *)
Inductive pykey :=
| KStr (s : string)
| KQ (q : Q).

(** [functools.reduce(f, l, init)] *)
Fixpoint reduce {A B} (f : A -> B -> M A) (l : list B) (init : A) : M A :=
  match l with
  | [] => ret init
  | y :: rest => a <- f init y ;; reduce f rest a
  end.

(** ** Construction *)

(** The keyword arguments of a construction, by name; [kw_other] holds the
    names of any further keywords. A keyword may be given with the value
    [None] where the code compares with [None]. *)
Record init_kwargs := {
  kw_data_view : option string;
  kw_userGetValTextFuncName : option string;
  kw_model : option (option Model);
  kw_queryset : option (option QuerySet);
  kw_search_fields : option loc;
  kw_max_results : option Z;
  kw_attrs : option (option attrs_t);
  kw_choices : option (list (string * string));
  kw_other : list string
}.

Definition no_kwargs : init_kwargs :=
  {| kw_data_view := None; kw_userGetValTextFuncName := None;
     kw_model := None; kw_queryset := None; kw_search_fields := None;
     kw_max_results := None; kw_attrs := None; kw_choices := None;
     kw_other := [] |}.

(** The positional arguments of a construction, typed as
    [forms.Select.__init__(self, attrs=None, choices=())] takes them. *)
Inductive positional :=
| Pos0
| Pos1 (a : option attrs_t)
| Pos2 (a : option attrs_t) (c : list (string * string))
| PosMore (a : option attrs_t) (c : list (string * string)) (further : nat).

(** The object before [__init__] runs: an attribute not yet assigned reads
    as the class attribute. *)
Definition new_object (cls : pyclass) (oid : N) : widget :=
  {| wid := oid; wclass := cls; attrs := ∅; choices := [];
     is_required := false; data_view := EmptyString;
     userGetValTextFuncName := EmptyString; widget_id := None;
     model := cls_model cls; queryset := cls_queryset cls;
     search_fields := cls_search_fields cls;
     max_results := cls_max_results cls |}.

(** [forms.Select.__init__] over [forms.Widget.__init__] (Django 1.8):
    [self.attrs] is a copy of [attrs] or empty, [self.choices] is
    [list(choices)]. Any other keyword, an argument given both by position
    and by keyword, and a third positional argument are a [TypeError]. *)
Definition Select_init (pos : positional) (kw : init_kwargs) (w : widget)
  : result widget :=
  let assign (a : option attrs_t) (c : list (string * string)) :=
    Ok {| wid := wid w; wclass := wclass w;
          attrs := default ∅ a; choices := c;
          is_required := is_required w; data_view := data_view w;
          userGetValTextFuncName := userGetValTextFuncName w;
          widget_id := widget_id w; model := model w; queryset := queryset w;
          search_fields := search_fields w; max_results := max_results w |} in
  match kw_data_view kw, kw_userGetValTextFuncName kw, kw_model kw,
        kw_queryset kw, kw_search_fields kw, kw_max_results kw, kw_other kw with
  | None, None, None, None, None, None, [] =>
      match pos, kw_attrs kw, kw_choices kw with
      | Pos0, a, c => assign (default None a) (default [] c)
      | Pos1 a, None, c => assign a (default [] c)
      | Pos2 a c, None, None => assign a c
      | _, _, _ => Raise TypeError
      end
  | _, _, _, _, _, _, _ => Raise TypeError
  end.

(** A call of [__init__(self, **kwargs)]: no positional argument fits. *)
Definition call_kwargs_only (init : init_kwargs -> widget -> result widget)
    (pos : positional) (kw : init_kwargs) (w : widget) : result widget :=
  match pos with
  | Pos0 => init kw w
  | _ => Raise TypeError
  end.

(** [HeavySelect2Mixin.__init__] *)
Definition HeavySelect2Mixin_init (kw : init_kwargs) (w : widget)
  : result widget :=
  match kw_data_view kw with
  | None => Raise (KeyError "data_view")
  | Some v =>
      let w :=
        {| wid := wid w; wclass := wclass w; attrs := attrs w;
           choices := choices w; is_required := is_required w;
           data_view := v;
           userGetValTextFuncName :=
             default "null" (kw_userGetValTextFuncName kw);
           widget_id := widget_id w; model := model w; queryset := queryset w;
           search_fields := search_fields w; max_results := max_results w |} in
      let kwargs :=
        {| kw_data_view := None; kw_userGetValTextFuncName := None;
           kw_model := kw_model kw; kw_queryset := kw_queryset kw;
           kw_search_fields := kw_search_fields kw;
           kw_max_results := kw_max_results kw; kw_attrs := kw_attrs kw;
           kw_choices := kw_choices kw; kw_other := kw_other kw |} in
      Select_init Pos0 kwargs w
  end.

(** [AutoHeavySelect2Mixin.__init__] *)
Definition AutoHeavySelect2Mixin_init (args : positional) (kw : init_kwargs)
    (w : widget) : result widget :=
  let w :=
    {| wid := wid w; wclass := wclass w; attrs := attrs w;
       choices := choices w; is_required := is_required w;
       data_view := data_view w;
       userGetValTextFuncName := userGetValTextFuncName w;
       widget_id := widget_id w;
       model := default (model w) (kw_model kw);
       queryset := default (queryset w) (kw_queryset kw);
       search_fields := default (search_fields w) (kw_search_fields kw);
       max_results := default (max_results w) (kw_max_results kw) |} in
  let defaults :=
    {| kw_data_view :=
         Some (default "django_select2_central_json" (kw_data_view kw));
       kw_userGetValTextFuncName := kw_userGetValTextFuncName kw;
       kw_model := None; kw_queryset := None; kw_search_fields := None;
       kw_max_results := None; kw_attrs := kw_attrs kw;
       kw_choices := kw_choices kw; kw_other := kw_other kw |} in
  call_kwargs_only HeavySelect2Mixin_init args defaults w.

(** The call of a widget class with positional arguments and keywords: the
    object gets the identity [oid] and the [__init__] its class resolves to
    runs on it. *)
Definition construct (cls : pyclass) (oid : N) (args : positional)
    (kw : init_kwargs) : result widget :=
  let b := cls_base cls in
  if is_auto b then AutoHeavySelect2Mixin_init args kw (new_object cls oid)
  else if is_heavy b then
    call_kwargs_only HeavySelect2Mixin_init args kw (new_object cls oid)
  else Select_init args kw (new_object cls oid).

(** The arguments a heavy class accepts besides [data_view]: no positional
    argument, no keyword beyond [userGetValTextFuncName], [attrs] and
    [choices], and the four keywords of [AutoHeavySelect2Mixin] on an
    auto-heavy class only. *)
Definition valid_heavy_args (b : widget_base) (args : positional)
    (kw : init_kwargs) : bool :=
  match args, kw_other kw with
  | Pos0, [] =>
      is_auto b
      || match kw_model kw, kw_queryset kw, kw_search_fields kw,
               kw_max_results kw with
         | None, None, None, None => true
         | _, _, _, _ => false
         end
  | _, _ => false
  end.

(** ** Django and the settings, as far as the widgets call them *)

Class Django := {
  (** [django.core.urlresolvers.reverse] under the project's URLconf:
      [None] stands for [NoReverseMatch]. *)
  reverse : string -> option string;
  (** [django.core.signing.dumps] of an integer at a given time (the token
      carries a timestamp) and [django.core.signing.loads], which yields
      [None] for [BadSignature]. *)
  signing_dumps : Z -> N -> string;
  signing_loads : string -> option N;
  (** [settings.SELECT2_CACHE_PREFIX] *)
  SELECT2_CACHE_PREFIX : string;
  (** The markup [format_html] makes of an option in
      [forms.Select.render_option]: value, selected or not, label. *)
  format_option : string -> bool -> string -> string;
  (** The ORM: a record satisfies the keyword lookup [lookup=term]. *)
  lookup_matches : row -> string -> string -> bool
}.

Section Forms.

Context `{!Django}.

(** *** [forms.Widget.build_attrs] (Django 1.8)

<<
    attrs = dict(self.attrs, **kwargs)
    if extra_attrs:
        attrs.update(extra_attrs)
    return attrs
>> *)
Definition Widget_build_attrs (extra_attrs : pyobj) (kwargs : attrs_t)
  : M attrs_t :=
  w <- get_self ;;
  let attrs := dict_update (attrs w) kwargs in
  match extra_attrs with
  | PyNone => ret attrs
  | PyDict d => ret (if decide (d = ∅) then attrs else dict_update attrs d)
  | PyWidget _ => raise TypeError
  end.

(** [v += s] for a string [s]: concatenation on text, [TypeError] on an
    integer, extension by the characters of [s] on a list; a lazy URL is
    resolved first. *)
Definition iadd_str (v : attr_value) (s : string) : M attr_value :=
  match v with
  | AStr a => ret (AStr (a +:+ s))
  | AInt _ => raise TypeError
  | AList l => ret (AList (l ++ chars s))
  | ALazyUrl view =>
      match reverse view with
      | Some u => ret (AStr (u +:+ s))
      | None => raise (NoReverseMatch view)
      end
  end.

(** *** [Select2Mixin] *)

Definition Select2Mixin_build_attrs (extra_attrs : pyobj) (kwargs : attrs_t)
  : M attrs_t :=
  attrs <- Widget_build_attrs PyNone kwargs ;;
  w <- get_self ;;
  let attrs :=
    setdefault "data-allowClear"
      (AStr (if is_required w then "true" else "false")) attrs in
  match attrs !! "class" with
  | Some v =>
      v' <- iadd_str v " django-select2" ;;
      ret (<["class" := v']> attrs)
  | None => ret (<["class" := AStr "django-select2"]> attrs)
  end.

(** *** [HeavySelect2Mixin] *)

Definition get_url : M attr_value :=
  w <- get_self ;;
  ret (ALazyUrl (data_view w)).

(** ["%s%s" % (settings.SELECT2_CACHE_PREFIX, id(self))] *)
Definition cache_key_of (i : N) : string := SELECT2_CACHE_PREFIX +:+ pretty i.

Definition _get_cache_key : M string :=
  w <- get_self ;;
  ret (cache_key_of (wid w)).

(** [self.widget_id] *)
Definition read_widget_id : M string :=
  w <- get_self ;;
  match widget_id w with
  | Some k => ret k
  | None => raise AttributeError
  end.

Definition HeavySelect2Mixin_build_attrs (extra_attrs : pyobj)
    (kwargs : attrs_t) : M attrs_t :=
  attrs <- Select2Mixin_build_attrs extra_attrs kwargs ;;
  let kwargs := delete "choices" kwargs in
  w <- get_self ;;
  t <- get_now ;;
  put_self (set_widget_id (signing_dumps t (wid w)) w) ;;;
  key <- _get_cache_key ;;
  w <- get_self ;;
  cache_set key w ;;;
  k <- read_widget_id ;;
  let attrs := <["data-field_id" := AStr k]> attrs in
  url <- get_url ;;
  let attrs := setdefault "data-ajax--url" url attrs in
  let attrs := setdefault "data-ajax--cache" (AStr "true") attrs in
  let attrs := setdefault "data-ajax--type" (AStr "GET") attrs in
  let attrs := setdefault "data-minimumInputLength" (AInt 2) attrs in
  ret attrs.

(** A call of a bound method with the signature
    [build_attrs(self, extra_attrs=None, **kwargs)], given the positional
    arguments and the keywords: at most one positional argument fits
    after [self]. *)
Definition call_build_attrs (method : pyobj -> attrs_t -> M attrs_t)
    (positional : list pyobj) (kwargs : attrs_t) : M attrs_t :=
  match positional with
  | [] => method PyNone kwargs
  | [a] => method a kwargs
  | _ => raise TypeError
  end.

(** *** [HeavySelect2TagWidget] *)

Definition HeavySelect2TagWidget_build_attrs (extra_attrs : pyobj)
    (kwargs : attrs_t) : M attrs_t :=
  w <- get_self ;;
  attrs <- call_build_attrs HeavySelect2Mixin_build_attrs
             [PyWidget w; extra_attrs] kwargs ;;
  let attrs := <["data-minimumInputLength" := AInt 1]> attrs in
  let attrs := <["data-tags" := AStr "true"]> attrs in
  let attrs := <["data-tokenSeparators" := AList [","; " "]]> attrs in
  ret attrs.

(** [self.build_attrs(extra_attrs, **kwargs)]: the method the class of
    the receiver resolves to. *)
Definition build_attrs (extra_attrs : pyobj) (kwargs : attrs_t) : M attrs_t :=
  w <- get_self ;;
  let b := cls_base (wclass w) in
  if is_tag b then HeavySelect2TagWidget_build_attrs extra_attrs kwargs
  else if is_heavy b then HeavySelect2Mixin_build_attrs extra_attrs kwargs
  else Select2Mixin_build_attrs extra_attrs kwargs.

(** *** The registry *)

(** Modelled from the spec: the lookup of the central Ajax view, which is
    not among the sources: the signed key is checked and opened, and the
    widget is read from the cache under the prefixed identity; an unknown,
    expired or forged key is a miss. *)
Definition resolve (key : string) (c : gmap string widget) : option widget :=
  match signing_loads key with
  | Some i => c !! cache_key_of i
  | None => None
  end.

(** *** [HeavySelect2Mixin.render_options] *)

(** [forms.Select.render_option] (Django 1.8): the markup of one option;
    on a single select the value found selected is removed from the set
    it was handed. *)
Definition render_option (w : widget) (selected_choices : gset string)
    (option_value option_label : string) : string * gset string :=
  if decide (option_value ∈ selected_choices) then
    (format_option option_value true option_label,
     if allow_multiple_selected (cls_base (wclass w)) then selected_choices
     else selected_choices ∖ {[option_value]})
  else (format_option option_value false option_label, selected_choices).

(** The loop over the set. [pending] is what the iterator has left and
    [used] the size of the set when the loop began: each step of a set
    iterator first checks that the size has not changed. *)
Fixpoint render_options_loop (w : widget) (used : nat) (pending : list string)
    (selected_choices : gset string) (output : list string)
  : result (list string) :=
  if decide (size selected_choices = used) then
    match pending with
    | [] => Ok output
    | s :: rest =>
        match unpack2 s with
        | Ok (option_value, option_label) =>
            let '(html, selected_choices) :=
              render_option w selected_choices option_value option_label in
            render_options_loop w used rest selected_choices (output ++ [html])
        | Raise e => Raise e
        end
    end
  else Raise RuntimeError.

Definition render_options (choices : list (string * string))
    (selected_choices : list selected_value) : M string :=
  w <- get_self ;;
  let selected_choices : gset string :=
    list_to_set (force_text <$> selected_choices) in
  match render_options_loop w (size selected_choices)
          (elements selected_choices) selected_choices [] with
  | Ok output => ret (join newline output)
  | Raise e => raise e
  end.


(** *** [AutoHeavySelect2Mixin] *)

Definition missing_queryset_message (cls : string) : string :=
  cls +:+ " is missing a QuerySet. Define " +:+
  cls +:+ ".model, " +:+ cls +:+ ".queryset, or override " +:+
  cls +:+ ".get_queryset().".

Definition missing_search_fields_message (cls : string) : string :=
  cls +:+ ", must implement " +:+ dquote +:+ "search_fields" +:+ dquote +:+ ".".

Definition get_queryset : M QuerySet :=
  w <- get_self ;;
  match queryset w with
  | Some queryset => ret queryset
  | None =>
      match model w with
      | Some model => ret (default_manager_all model)
      | None =>
          raise (NotImplementedError (missing_queryset_message (class_name w)))
      end
  end.

(** The truth value of a list is that it is not empty; what is returned
    is the stored list itself, not a copy. *)
Definition get_search_fields : M loc :=
  w <- get_self ;;
  xs <- deref (search_fields w) ;;
  match xs with
  | _ :: _ => ret (search_fields w)
  | [] =>
      raise (NotImplementedError
               (missing_search_fields_message (class_name w)))
  end.

(** [Q] called with the one keyword [k] set to [term]: a keyword must be
    a string. *)
Definition Q_of (k : pykey) (term : string) : M Q :=
  match k with
  | KStr s => ret (Q_kw s term)
  | KQ _ => raise TypeError
  end.

Fixpoint Q_holds (q : Q) (r : row) : bool :=
  match q with
  | Q_kw lookup term => lookup_matches r lookup term
  | Q_or a b => Q_holds a r || Q_holds b r
  end.

(** [qs.filter(select)] and [qs.distinct()] on the rows. *)
Definition qs_filter (select : pykey) (qs : QuerySet) : M QuerySet :=
  match select with
  | KQ q => ret (List.filter (Q_holds q) qs)
  | KStr _ => raise TypeError
  end.

Definition distinct (qs : QuerySet) : QuerySet := remove_dups qs.

(** The arguments of [reduce] are evaluated from left to right: the list
    is popped for the initial value before [reduce] iterates over it. *)
Definition filter_queryset (term : string) : M QuerySet :=
  qs <- get_queryset ;;
  search_fields <- get_search_fields ;;
  popped <- list_pop search_fields ;;
  initial <- Q_of (KStr popped) term ;;
  remaining <- deref search_fields ;;
  select <- reduce
              (fun x y =>
                 a <- Q_of x term ;;
                 b <- Q_of (KStr y) term ;;
                 ret (KQ (Q_or a b)))
              remaining (KQ initial) ;;
  filtered <- qs_filter select qs ;;
  ret (distinct filtered).

End Forms.

(** ** The package: [django_select2/__init__.py] *)

(** A value of the Django settings, as far as the package tests and stores
    them. *)
Inductive setting_value :=
| VNone
| VBool (b : bool)
| VInt (z : Z)
| VStr (s : string).

(** The truth value of a setting in an [if]. *)
Definition truthy (v : setting_value) : bool :=
  match v with
  | VNone => false
  | VBool b => b
  | VInt z => negb (z =? 0)
  | VStr EmptyString => false
  | VStr (String _ _) => true
  end.

(** What [from django.conf import settings] and [settings.configured] find:
    no Django ([ImportError]), settings that are not configured, or the
    attributes of the configured settings. *)
Inductive django_settings :=
| DjangoNotFound
| NotConfigured
| Configured (attributes : gmap string setting_value).

(** [getattr(settings, name, default)] *)
Definition getattr (settings : gmap string setting_value) (name : string)
    (default_value : setting_value) : setting_value :=
  default default_value (settings !! name).

(** The module variables of the package. *)
Record package := {
  __RENDER_SELECT2_STATICS : setting_value;
  __BOOTSTRAP : setting_value;
  __ENABLE_MULTI_PROCESS_SUPPORT : setting_value;
  __MEMCACHE_HOST : setting_value;
  __MEMCACHE_PORT : setting_value;
  __MEMCACHE_TTL : setting_value;
  __GENERATE_RANDOM_ID : setting_value
}.

(** The module variables as lines 91 to 99 set them. *)
Definition package_defaults : package :=
  {| __RENDER_SELECT2_STATICS := VBool false;
     __BOOTSTRAP := VBool false;
     __ENABLE_MULTI_PROCESS_SUPPORT := VBool false;
     __MEMCACHE_HOST := VNone;
     __MEMCACHE_PORT := VNone;
     __MEMCACHE_TTL := VInt 900;
     __GENERATE_RANDOM_ID := VBool false |}.

Definition random_id_deprecated : string :=
  "Select2's setting " +:+ dquote +:+ "GENERATE_RANDOM_SELECT2_ID" +:+ dquote
  +:+ " has been deprecated." +:+ newline
  +:+ "Since version 4.4 all IDs will be encrypted by default.".

Definition multi_process_deprecated : string :=
  "Select2's setting " +:+ dquote +:+ "ENABLE_SELECT2_MULTI_PROCESS_SUPPORT"
  +:+ dquote +:+ " has been deprecated and will be removed in version 4.4."
  +:+ newline +:+ "Multiprocessing support is on by default." +:+ newline
  +:+ "If you seek multi machine support please review the latest "
  +:+ "documentation.".

(** The body of the module up to the imports of the widgets, fields and
    views: the module variables it leaves and the messages it hands to
    [warnings.warn] as [DeprecationWarning], in order. The message about
    [SELECT2_MEMCACHE_HOST] is built and dropped: it is not among them. *)
Definition load_package (settings : django_settings) : package * list string :=
  match settings with
  | DjangoNotFound | NotConfigured => (package_defaults, [])
  | Configured settings =>
      let render :=
        getattr settings "AUTO_RENDER_SELECT2_STATICS" (VBool true) in
      let multi :=
        getattr settings "ENABLE_SELECT2_MULTI_PROCESS_SUPPORT" (VBool false) in
      let host := getattr settings "SELECT2_MEMCACHE_HOST" VNone in
      let port := getattr settings "SELECT2_MEMCACHE_PORT" VNone in
      let ttl := getattr settings "SELECT2_MEMCACHE_TTL" (VInt 900) in
      let random_id :=
        getattr settings "GENERATE_RANDOM_SELECT2_ID" (VBool false) in
      let bootstrap := getattr settings "SELECT2_BOOTSTRAP" (VBool false) in
      let '(multi, warned) :=
        if truthy random_id then (VBool false, [random_id_deprecated])
        else (multi, []) in
      let warned :=
        if truthy multi then (warned ++ [multi_process_deprecated])%list
        else warned in
      ({| __RENDER_SELECT2_STATICS := render;
          __BOOTSTRAP := bootstrap;
          __ENABLE_MULTI_PROCESS_SUPPORT := multi;
          __MEMCACHE_HOST := host;
          __MEMCACHE_PORT := port;
          __MEMCACHE_TTL := ttl;
          __GENERATE_RANDOM_ID := random_id |}, warned)
  end.

(** ** More of the state *)


(** The defaults of [HeavySelect2Mixin.build_attrs], each set with
    [setdefault]: the key and the value for a widget with the given
    [data_view]. *)
Definition heavy_defaults (view : string) : list (string * attr_value) :=
  [ ("data-ajax--url", ALazyUrl view);
    ("data-ajax--cache", AStr "true");
    ("data-ajax--type", AStr "GET");
    ("data-minimumInputLength", AInt 2) ].

(** ** Sample inputs

    A Django whose tokens are the decimal digits of the object, a state
    around a widget, and a few widgets. *)

Definition sample_django : Django :=
  {| reverse := fun view => Some ("/" +:+ view +:+ "/");
     signing_dumps := fun _ i => NilZero.string_of_uint (N.to_uint i);
     signing_loads := fun s => N.of_uint <$> NilZero.uint_of_string s;
     SELECT2_CACHE_PREFIX := "select2_";
     format_option := fun value selected label =>
       "<option value=" +:+ value +:+
       (if selected : bool then " selected>" else ">") +:+
       label +:+ "</option>";
     lookup_matches := fun r lookup term =>
       bool_decide (r !! lookup = Some term) |}.

Definition state_of (w : widget) (h : gmap loc (list string)) : st :=
  {| self := w; heap := h; cache := ∅; now := 0 |}.

(** The widget [cls(data_view=...)] or, for an auto-heavy class,
    [cls(queryset=..., search_fields=...)] would leave, with the given
    data source and list of search fields. *)
Definition sample_widget (b : widget_base) (oid : N)
    (qs : option QuerySet) (m : option Model) (fields : loc) : widget :=
  {| wid := oid; wclass := library_class b; attrs := ∅; choices := [];
     is_required := false; data_view := "django_select2_central_json";
     userGetValTextFuncName := "null"; widget_id := None;
     model := m; queryset := qs; search_fields := fields;
     max_results := 25 |}.

(** The keywords [data_view=...] and [queryset=...] alone. *)
Definition kwargs_data_view (view : string) : init_kwargs :=
  {| kw_data_view := Some view; kw_userGetValTextFuncName := None;
     kw_model := None; kw_queryset := None; kw_search_fields := None;
     kw_max_results := None; kw_attrs := None; kw_choices := None;
     kw_other := [] |}.

Definition kwargs_queryset (qs : QuerySet) : init_kwargs :=
  {| kw_data_view := None; kw_userGetValTextFuncName := None;
     kw_model := None; kw_queryset := Some (Some qs);
     kw_search_fields := None; kw_max_results := None; kw_attrs := None;
     kw_choices := None; kw_other := [] |}.

(** A subclass of [AutoHeavySelect2Widget] that sets [queryset] and
    [search_fields] in its body, the list being at an address of its own. *)
Definition sample_subclass (qs : QuerySet) (fields : loc) : pyclass :=
  {| cls_name := "CityWidget";
     cls_base := AutoHeavySelect2Widget;
     cls_model := None;
     cls_queryset := Some qs;
     cls_search_fields := fields;
     cls_max_results := 25 |}.

Definition sample_rows : QuerySet :=
  [ {[ "name" := "x" ; "email" := "a@b" ]} ;
    {[ "name" := "y" ; "email" := "x" ]} ;
    {[ "name" := "z" ; "email" := "c@d" ]} ].

(** [model] or [queryset] is set. *)
Definition has_source (w : widget) : bool :=
  match queryset w, model w with
  | None, None => false
  | _, _ => true
  end.

(** The state after the calls [filter_queryset(term)] for the terms of a
    list, one after the other, whatever each call returns or raises. *)
Fixpoint filter_queryset_calls `{!Django} (terms : list string) (s : st) : st :=
  match terms with
  | [] => s
  | term :: rest => filter_queryset_calls rest (snd (filter_queryset term s))
  end.

(** * Properties *)

(** ** Strings *)

Lemma string_app_assoc (a b c : string) : (a +:+ b) +:+ c = a +:+ (b +:+ c).
Proof.
  induction a as [|x a IH]; [reflexivity|].
  change (String x ((a +:+ b) +:+ c) = String x (a +:+ (b +:+ c))).
  now rewrite IH.
Qed.

Lemma occurs_in_prefix (t post : string) : occurs_in t (t +:+ post).
Proof. exists EmptyString, post. reflexivity. Qed.

(** ** The sample Django keeps the contract of [signing] *)


(** ** Running the monad *)

Lemma result_pair_ok {A} (r : result A * st) (d : A) :
  is_ok (fst r) = true ->
  r = (Ok (match fst r with Ok a => a | Raise _ => d end), snd r).
Proof. destruct r as [[a|e] s]; [reflexivity|discriminate]. Qed.

Lemma bind_run {A B} (m : M A) (k : A -> M B) (s : st) :
  bind m k s
  = match m s with
    | (Ok a, s') => k a s'
    | (Raise e, s') => (Raise e, s')
    end.
Proof. reflexivity. Qed.

Section AutoHeavy.

Context `{!Django}.

(** *** [get_queryset] *)

Lemma get_queryset_state (s : st) : snd (get_queryset s) = s.
Proof.
  unfold get_queryset, bind, get_self, ret, raise; simpl.
  destruct (queryset (self s)); [reflexivity|].
  destruct (model (self s)); reflexivity.
Qed.

Lemma get_queryset_has_source (s : st) :
  has_source (self s) = true ->
  exists qs, get_queryset s = (Ok qs, s).
Proof.
  unfold has_source, get_queryset, bind, get_self, ret; simpl.
  destruct (queryset (self s)) as [q|]; [eauto|].
  destruct (model (self s)) as [m|]; [eauto|discriminate].
Qed.

Lemma class_in_missing_queryset_message (cls : string) :
  occurs_in (cls +:+ ".model") (missing_queryset_message cls)
  /\ occurs_in (cls +:+ ".queryset") (missing_queryset_message cls).
Proof.
  unfold missing_queryset_message. split.
  - exists (cls +:+ " is missing a QuerySet. Define "),
      (", " +:+ cls +:+ ".queryset, or override " +:+
       cls +:+ ".get_queryset().").
    now rewrite !string_app_assoc.
  - exists (cls +:+ " is missing a QuerySet. Define " +:+ cls +:+ ".model, "),
      (", or override " +:+ cls +:+ ".get_queryset().").
    now rewrite !string_app_assoc.
Qed.

(** C6: [get_queryset] returns the explicit queryset when it is set,
    otherwise the full queryset of the default manager of [model] when
    that is set, and otherwise raises [NotImplementedError] with a message
    that begins with the name of the class of the widget and names
    its [model] and [queryset] attributes. The state is left as it was. *)
Theorem get_queryset_cases (s : st) :
  (forall qs, queryset (self s) = Some qs ->
     get_queryset s = (Ok qs, s))
  /\ (forall m, queryset (self s) = None -> model (self s) = Some m ->
     get_queryset s = (Ok (default_manager_all m), s))
  /\ (queryset (self s) = None -> model (self s) = None ->
     exists msg,
       get_queryset s = (Raise (NotImplementedError msg), s)
       /\ msg = missing_queryset_message (cls_name (wclass (self s)))
       /\ occurs_in (cls_name (wclass (self s))) msg
       /\ occurs_in (cls_name (wclass (self s)) +:+ ".model") msg
       /\ occurs_in (cls_name (wclass (self s)) +:+ ".queryset") msg).
Proof.
  unfold get_queryset, bind, get_self, ret, raise; simpl.
  split; [|split].
  - intros qs ->. reflexivity.
  - intros m -> ->. reflexivity.
  - intros -> ->. eexists; split; [reflexivity|]. split; [reflexivity|].
    split; [apply occurs_in_prefix|].
    apply class_in_missing_queryset_message.
Qed.

(** *** [filter_queryset] *)

Lemma reduce_lambda_raises (term : string) (y : string) (rest : list string)
    (q : Q) (s : st) :
  reduce
    (fun x y =>
       a <- Q_of x term ;;
       b <- Q_of (KStr y) term ;;
       ret (KQ (Q_or a b)))
    (y :: rest) (KQ q) s
  = (Raise TypeError, s).
Proof. reflexivity. Qed.

(** With no search field left the call raises and changes nothing. *)
Lemma filter_queryset_no_fields (term : string) (s : st) :
  has_source (self s) = true ->
  heap s !!! search_fields (self s) = [] ->
  filter_queryset term s
  = (Raise (NotImplementedError
              (missing_search_fields_message (class_name (self s)))), s).
Proof.
  intros Hsrc Hnil.
  destruct (get_queryset_has_source s Hsrc) as [qs Hqs].
  unfold filter_queryset, bind. rewrite Hqs.
  unfold get_search_fields, bind, get_self, deref; simpl.
  rewrite Hnil. reflexivity.
Qed.

Lemma get_search_fields_nonempty (s : st) (z : string) (zs : list string) :
  heap s !!! search_fields (self s) = z :: zs ->
  get_search_fields s = (Ok (search_fields (self s)), s).
Proof.
  intros Hz. unfold get_search_fields.
  rewrite bind_run; simpl. rewrite bind_run; simpl. now rewrite Hz.
Qed.

Lemma list_pop_snoc (l : loc) (s : st) (xs : list string) (x : string) :
  heap s !!! l = (xs ++ [x])%list ->
  list_pop l s = (Ok x, with_heap (<[l := xs]> (heap s)) s).
Proof.
  intros Hxs. unfold list_pop. rewrite bind_run; simpl.
  now rewrite Hxs, last_snoc, removelast_last.
Qed.

(** With the fields [xs ++ [x]] the call pops [x]; it returns the rows of
    the base queryset that satisfy [x=term], without duplicates, when [x]
    was the only field, and raises [TypeError] when another field is
    left, the list staying popped. *)
Lemma filter_queryset_pops (term : string) (s : st) (xs : list string)
    (x : string) :
  has_source (self s) = true ->
  heap s !!! search_fields (self s) = (xs ++ [x])%list ->
  exists qs,
    get_queryset s = (Ok qs, s)
    /\ filter_queryset term s
       = (match xs with
          | [] => Ok (distinct (List.filter (Q_holds (Q_kw x term)) qs))
          | _ :: _ => Raise TypeError
          end,
          with_heap (<[search_fields (self s) := xs]> (heap s)) s).
Proof.
  intros Hsrc Hxs.
  destruct (get_queryset_has_source s Hsrc) as [qs Hqs].
  exists qs. split; [exact Hqs|].
  assert (Hcons : exists z zs,
             heap s !!! search_fields (self s) = z :: zs)
    by (rewrite Hxs; destruct xs; simpl; eauto).
  destruct Hcons as (z & zs & Hcons).
  unfold filter_queryset.
  rewrite bind_run, Hqs.
  rewrite bind_run, (get_search_fields_nonempty s z zs Hcons).
  rewrite bind_run, (list_pop_snoc _ s xs x Hxs).
  rewrite bind_run; simpl.
  rewrite bind_run; simpl.
  rewrite lookup_total_insert_eq.
  destruct xs as [|y ys].
  - reflexivity.
  - rewrite bind_run, reduce_lambda_raises. reflexivity.
Qed.

(** C7: with a data source and an empty [search_fields],
    [filter_queryset] raises [NotImplementedError] for every term, with a
    message that begins with the name of the class of the widget, and
    leaves the state as it was. *)
Theorem filter_queryset_empty_search_fields (term : string) (s : st) :
  has_source (self s) = true ->
  heap s !!! search_fields (self s) = [] ->
  exists msg,
    filter_queryset term s = (Raise (NotImplementedError msg), s)
    /\ msg = missing_search_fields_message (cls_name (wclass (self s)))
    /\ occurs_in (cls_name (wclass (self s))) msg.
Proof.
  intros Hsrc Hnil. eexists. split; [|split].
  - apply filter_queryset_no_fields; assumption.
  - reflexivity.
  - apply occurs_in_prefix.
Qed.

(** One call on a configured widget with a field left: the receiver, the
    cache and every other list stay, and the list loses its last field. *)
Lemma filter_queryset_step (term : string) (s : st) (xs : list string)
    (x : string) :
  has_source (self s) = true ->
  heap s !!! search_fields (self s) = (xs ++ [x])%list ->
  snd (filter_queryset term s)
  = with_heap (<[search_fields (self s) := xs]> (heap s)) s.
Proof.
  intros Hsrc Hxs.
  destruct (filter_queryset_pops term s xs x Hsrc Hxs) as (qs & _ & ->).
  reflexivity.
Qed.

Lemma filter_queryset_calls_frame (terms : list string) :
  forall s : st,
    has_source (self s) = true ->
    (length terms <= length (heap s !!! search_fields (self s)))%nat ->
    let s' := filter_queryset_calls terms s in
    let l := search_fields (self s) in
    self s' = self s
    /\ cache s' = cache s
    /\ now s' = now s
    /\ heap s' !!! l
       = take (length (heap s !!! l) - length terms) (heap s !!! l)
    /\ (forall l', l' <> l -> heap s' !! l' = heap s !! l').
Proof.
  induction terms as [|term rest IH]; intros s Hsrc Hlen; simpl.
  - rewrite Nat.sub_0_r, firstn_all. auto.
  - simpl in Hlen.
    destruct (exists_last (l := heap s !!! search_fields (self s)))
      as (xs & x & Hxs).
    { intros Hnil. rewrite Hnil in Hlen. simpl in Hlen. lia. }
    rewrite (filter_queryset_step term s xs x Hsrc Hxs).
    set (s1 := with_heap (<[search_fields (self s) := xs]> (heap s)) s).
    assert (Hs1 : heap s1 !!! search_fields (self s1) = xs)
      by (simpl; apply lookup_total_insert_eq).
    destruct (IH s1) as (Hself & Hcache & Hnow & Hl & Hother).
    { exact Hsrc. }
    { rewrite Hs1. rewrite Hxs, length_app in Hlen. simpl in Hlen. lia. }
    rewrite Hs1 in Hl. simpl in Hself, Hcache, Hnow, Hl, Hother.
    repeat split; try assumption.
    + rewrite Hl, Hxs, length_app; simpl.
      replace (length xs + 1 - S (length rest))%nat
        with (length xs - length rest)%nat by lia.
      rewrite take_app_le by lia. reflexivity.
    + intros l' Hne. rewrite (Hother l' Hne).
      apply lookup_insert_ne. congruence.
Qed.

(** C10, as amended: on a widget with a data source, [filter_queryset]
    works on the stored list itself: after [k] calls, [k] at most the
    number of configured fields, the list holds the first fields without
    the last [k], whatever the calls returned or raised; after as many
    calls as there were fields it is empty, and one more call raises the
    [NotImplementedError] of an empty [search_fields] and changes nothing.
    The receiver, so its [model], [queryset] and [max_results], the cache
    and the other lists of the heap stay as they were. *)
Theorem filter_queryset_consumes_search_fields (terms : list string)
    (term : string) (s : st) :
  has_source (self s) = true ->
  length terms = length (heap s !!! search_fields (self s)) ->
  let l := search_fields (self s) in
  let fields := heap s !!! l in
  (forall k, (k <= length fields)%nat ->
     heap (filter_queryset_calls (take k terms) s) !!! l
     = take (length fields - k) fields)
  /\ heap (filter_queryset_calls terms s) !!! l = []
  /\ filter_queryset term (filter_queryset_calls terms s)
     = (Raise (NotImplementedError
                 (missing_search_fields_message (cls_name (wclass (self s))))),
        filter_queryset_calls terms s)
  /\ self (filter_queryset_calls terms s) = self s
  /\ model (self (filter_queryset_calls terms s)) = model (self s)
  /\ queryset (self (filter_queryset_calls terms s)) = queryset (self s)
  /\ max_results (self (filter_queryset_calls terms s)) = max_results (self s)
  /\ cache (filter_queryset_calls terms s) = cache s
  /\ (forall l', l' <> l ->
        heap (filter_queryset_calls terms s) !! l' = heap s !! l').
Proof.
  intros Hsrc Hlen l fields.
  destruct (filter_queryset_calls_frame terms s Hsrc) as
    (Hself & Hcache & Hnow & Hl & Hother); [lia|].
  fold l fields in Hl, Hother, Hlen.
  assert (Hempty : heap (filter_queryset_calls terms s) !!! l = []).
  { rewrite Hl, Hlen, Nat.sub_diag. reflexivity. }
  split; [|split; [exact Hempty|split]].
  - intros k Hk.
    destruct (filter_queryset_calls_frame (take k terms) s Hsrc) as
      (_ & _ & _ & Hk' & _).
    { rewrite length_take. fold l fields. lia. }
    fold l fields in Hk'. rewrite Hk', length_take.
    replace (k `min` length terms)%nat with k by lia. reflexivity.
  - rewrite filter_queryset_no_fields.
    + unfold class_name. now rewrite Hself.
    + now rewrite Hself.
    + now rewrite Hself.
  - rewrite Hself. repeat split; try reflexivity; assumption.
Qed.

(** C1, at the input of the specification: with a base queryset and the
    search fields [name] and [email], [filter_queryset] pops [email] and
    raises [TypeError]: the [reduce] lambda uses the accumulated [Q] as
    the keyword of another [Q]. No queryset is returned. *)
Theorem filter_queryset_name_email_raises (qs : QuerySet) (term : string) :
  let w := sample_widget AutoHeavySelect2Widget 1 (Some qs) None 2 in
  let s := state_of w {[ 2%positive := ["name"; "email"] ]} in
  fst (filter_queryset term s) = Raise TypeError
  /\ heap (snd (filter_queryset term s)) !!! 2%positive = ["name"].
Proof.
  intros w s.
  destruct (filter_queryset_pops term s ["name"] "email") as (q & _ & ->).
  - reflexivity.
  - reflexivity.
  - split; [reflexivity|]. simpl. apply lookup_total_insert_eq.
Qed.

End AutoHeavy.

(** ** Dictionaries *)

Lemma setdefault_keeps (k k' : string) (v x : attr_value) (d : attrs_t) :
  d !! k' = Some x -> setdefault k v d !! k' = Some x.
Proof.
  intros Hx. unfold setdefault. destruct (d !! k) eqn:Hk; [exact Hx|].
  rewrite lookup_insert_ne; [exact Hx|]. congruence.
Qed.

Lemma setdefault_is_Some (k : string) (v : attr_value) (d : attrs_t) :
  is_Some (setdefault k v d !! k).
Proof.
  unfold setdefault. destruct (d !! k) eqn:Hk.
  - rewrite Hk. eauto.
  - rewrite lookup_insert_eq. eauto.
Qed.

Lemma setdefault_fresh (k : string) (v : attr_value) (d : attrs_t) :
  d !! k = None -> setdefault k v d !! k = Some v.
Proof. intros Hk. unfold setdefault. rewrite Hk. apply lookup_insert_eq. Qed.

Section Build.

Context `{!Django}.

(** *** [Select2Mixin.build_attrs] *)

(** [extra_attrs] is never read: [None] is what the base class gets. *)
Lemma Select2Mixin_build_attrs_drops_extra_attrs (e1 e2 : pyobj)
    (kwargs : attrs_t) (s : st) :
  Select2Mixin_build_attrs e1 kwargs s = Select2Mixin_build_attrs e2 kwargs s.
Proof. reflexivity. Qed.

Lemma Select2Mixin_build_attrs_state (e : pyobj) (kwargs : attrs_t) (s : st) :
  snd (Select2Mixin_build_attrs e kwargs s) = s.
Proof.
  unfold Select2Mixin_build_attrs, Widget_build_attrs.
  do 2 (rewrite bind_run; simpl).
  match goal with |- context [match ?d !! "class" with _ => _ end] =>
    destruct (d !! "class") as [[a|z|l|view]|] end; try reflexivity.
  rewrite bind_run; simpl. destruct (reverse view); reflexivity.
Qed.

(** What is returned carries the marker class, an allow-clear flag, and
    every attribute of the widget and of the keywords but [class]. *)
Lemma Select2Mixin_build_attrs_ok (e : pyobj) (kwargs : attrs_t) (s : st)
    (a : attrs_t) (s' : st) :
  Select2Mixin_build_attrs e kwargs s = (Ok a, s') ->
  s' = s
  /\ is_Some (a !! "class")
  /\ is_Some (a !! "data-allowClear")
  /\ (forall k x, k <> "class" ->
        dict_update (attrs (self s)) kwargs !! k = Some x -> a !! k = Some x).
Proof.
  intros Hrun.
  pose proof (Select2Mixin_build_attrs_state e kwargs s) as Hst.
  rewrite Hrun in Hst. simpl in Hst. subst s'. split; [reflexivity|].
  revert Hrun. unfold Select2Mixin_build_attrs, Widget_build_attrs.
  do 2 (rewrite bind_run; simpl).
  set (d := setdefault _ _ _).
  assert (Hflag : is_Some (d !! "data-allowClear"))
    by apply setdefault_is_Some.
  assert (Hkeep : forall k x,
             dict_update (attrs (self s)) kwargs !! k = Some x ->
             d !! k = Some x)
    by (intros k x Hk; now apply setdefault_keeps).
  assert (Hfinal : forall v : attr_value,
             a = <["class" := v]> d ->
             is_Some (a !! "class") /\ is_Some (a !! "data-allowClear")
             /\ (forall k x, k <> "class" ->
                 dict_update (attrs (self s)) kwargs !! k = Some x ->
                 a !! k = Some x)).
  { intros v ->. split; [rewrite lookup_insert_eq; eauto|]. split.
    - rewrite lookup_insert_ne by discriminate. exact Hflag.
    - intros k x Hne Hk. rewrite lookup_insert_ne by congruence. auto. }
  destruct (d !! "class") as [[c|z|l|view]|] eqn:Hclass.
  - rewrite bind_run; simpl. intros [= <-]. eapply Hfinal; reflexivity.
  - rewrite bind_run; simpl. discriminate.
  - rewrite bind_run; simpl. intros [= <-]. eapply Hfinal; reflexivity.
  - rewrite bind_run; simpl. destruct (reverse view); simpl.
    + intros [= <-]. eapply Hfinal; reflexivity.
    + discriminate.
  - simpl. intros [= <-]. eapply Hfinal; reflexivity.
Qed.

(** With no [class] or a text for it among the attributes of the widget
    and the keywords, the call returns: [class] is the marker, appended
    after a blank to the text there was; [data-allowClear] is what was
    supplied or else tells whether the widget is required. *)
Lemma Select2Mixin_build_attrs_marker (e : pyobj) (kwargs : attrs_t) (s : st) :
  let d := dict_update (attrs (self s)) kwargs in
  let flag := AStr (if is_required (self s) then "true" else "false") in
  forall cls : option string,
    d !! "class" = AStr <$> cls ->
    exists a,
      Select2Mixin_build_attrs e kwargs s = (Ok a, s)
      /\ a !! "class"
         = Some (AStr (match cls with
                       | Some c => c +:+ " django-select2"
                       | None => "django-select2"
                       end))
      /\ a !! "data-allowClear"
         = Some (default flag (d !! "data-allowClear")).
Proof.
  intros d flag cls Hcls.
  unfold Select2Mixin_build_attrs, Widget_build_attrs.
  do 2 (rewrite bind_run; simpl). fold d flag.
  assert (Hd : setdefault "data-allowClear" flag d !! "class" = AStr <$> cls).
  { unfold setdefault. destruct (d !! "data-allowClear"); [exact Hcls|].
    now rewrite lookup_insert_ne by discriminate. }
  assert (Hflag : setdefault "data-allowClear" flag d !! "data-allowClear"
                  = Some (default flag (d !! "data-allowClear"))).
  { destruct (d !! "data-allowClear") as [x|] eqn:Hx; simpl.
    - now apply setdefault_keeps.
    - now apply setdefault_fresh. }
  rewrite Hd. destruct cls as [c|]; simpl.
  - rewrite bind_run; simpl. eexists. split; [reflexivity|].
    rewrite lookup_insert_eq, lookup_insert_ne by discriminate. auto.
  - eexists. split; [reflexivity|].
    rewrite lookup_insert_eq, lookup_insert_ne by discriminate. auto.
Qed.

(** C2, at a caller-supplied dictionary: [build_attrs] of a
    [Select2Widget] called with [extra_attrs] holding [id] returns the
    marker class and the flag only: the caller's [id] is not in the
    result, since [None] is passed on for [extra_attrs]. *)
Theorem Select2Widget_build_attrs_loses_extra_attrs :
  let w := sample_widget Select2Widget 1 None None 1 in
  let extra_attrs := PyDict {[ "id" := AStr "id_name" ]} in
  exists a,
    fst (build_attrs extra_attrs ∅ (state_of w ∅)) = Ok a
    /\ a = <["class" := AStr "django-select2"]>
             (<["data-allowClear" := AStr "false"]> ∅)
    /\ a !! "id" = None.
Proof.
  eexists. split; [reflexivity|]. split; [reflexivity|].
  vm_compute. reflexivity.
Qed.

(** *** [HeavySelect2Mixin.build_attrs] *)

(** The call either fails in [Select2Mixin.build_attrs], leaving the state
    as it was, or signs the identity, stores the widget under its cache
    key and returns the attributes with the signed key. *)
Lemma HeavySelect2Mixin_build_attrs_run (e : pyobj) (kwargs : attrs_t)
    (s : st) :
  let key := signing_dumps (now s) (wid (self s)) in
  let w' := set_widget_id key (self s) in
  match fst (Select2Mixin_build_attrs e kwargs s) with
  | Ok a0 =>
      HeavySelect2Mixin_build_attrs e kwargs s
      = (Ok (setdefault "data-minimumInputLength" (AInt 2)
               (setdefault "data-ajax--type" (AStr "GET")
                  (setdefault "data-ajax--cache" (AStr "true")
                     (setdefault "data-ajax--url" (ALazyUrl (data_view w'))
                        (<["data-field_id" := AStr key]> a0))))),
         {| self := w'; heap := heap s;
            cache := <[cache_key_of (wid (self s)) := w']> (cache s);
            now := now s |})
  | Raise ex => HeavySelect2Mixin_build_attrs e kwargs s = (Raise ex, s)
  end.
Proof.
  intros key w'. unfold HeavySelect2Mixin_build_attrs.
  rewrite bind_run.
  pose proof (Select2Mixin_build_attrs_state e kwargs s) as Hst.
  destruct (Select2Mixin_build_attrs e kwargs s) as [[a0|ex] s0];
    simpl in Hst; subst s0; reflexivity.
Qed.

Lemma HeavySelect2Mixin_build_attrs_ok (e : pyobj) (kwargs : attrs_t)
    (s : st) (a : attrs_t) (s' : st) :
  HeavySelect2Mixin_build_attrs e kwargs s = (Ok a, s') ->
  let key := signing_dumps (now s) (wid (self s)) in
  self s' = set_widget_id key (self s)
  /\ cache s' = <[cache_key_of (wid (self s)) := self s']> (cache s)
  /\ heap s' = heap s /\ now s' = now s
  /\ a !! "data-field_id" = Some (AStr key).
Proof.
  intros Hrun key.
  pose proof (HeavySelect2Mixin_build_attrs_run e kwargs s) as Hcases.
  simpl in Hcases.
  destruct (fst (Select2Mixin_build_attrs e kwargs s)) as [a0|ex].
  - rewrite Hcases in Hrun. injection Hrun as <- <-. simpl.
    repeat split; try reflexivity.
    do 4 apply setdefault_keeps. apply lookup_insert_eq.
  - rewrite Hcases in Hrun. discriminate.
Qed.

(** On a heavy widget that is not a tag widget, with text for [class] if
    any, the call returns. *)
Lemma HeavySelect2Mixin_build_attrs_returns (e : pyobj) (kwargs : attrs_t)
    (s : st) :
  (forall v, dict_update (attrs (self s)) kwargs !! "class" = Some v ->
     exists c, v = AStr c) ->
  exists a s', HeavySelect2Mixin_build_attrs e kwargs s = (Ok a, s').
Proof.
  intros Hclass.
  pose proof (HeavySelect2Mixin_build_attrs_run e kwargs s) as Hcases.
  simpl in Hcases.
  destruct (fst (Select2Mixin_build_attrs e kwargs s)) as [a0|ex] eqn:Hlight.
  - eauto.
  - exfalso. revert Hlight.
    unfold Select2Mixin_build_attrs, Widget_build_attrs.
    do 2 (rewrite bind_run; simpl).
    set (d := setdefault _ _ _).
    destruct (d !! "class") as [v|] eqn:Hd; [|discriminate].
    assert (Hv : dict_update (attrs (self s)) kwargs !! "class" = Some v).
    { revert Hd. unfold d, setdefault.
      destruct (dict_update (attrs (self s)) kwargs !! "data-allowClear");
        [tauto|].
      rewrite lookup_insert_ne by discriminate. tauto. }
    destruct (Hclass v Hv) as [c ->]. discriminate.
Qed.


(** *** [HeavySelect2TagWidget.build_attrs] *)

(** C4: [HeavySelect2TagWidget.build_attrs] returns no attribute set: for
    every input the call of the inherited method passes the widget and
    [extra_attrs] as two positional arguments where one fits, and
    raises [TypeError] before anything is set; so does [build_attrs] on
    every widget whose class is or derives from the tag widget. *)
Theorem HeavySelect2TagWidget_build_attrs_raises (extra_attrs : pyobj)
    (kwargs : attrs_t) (s : st) :
  HeavySelect2TagWidget_build_attrs extra_attrs kwargs s = (Raise TypeError, s)
  /\ (is_tag (cls_base (wclass (self s))) = true ->
      build_attrs extra_attrs kwargs s = (Raise TypeError, s)).
Proof.
  split; [reflexivity|].
  intros Htag. unfold build_attrs. rewrite bind_run; simpl.
  rewrite Htag. reflexivity.
Qed.

(** C3, at a tag widget: [build_attrs] of a [HeavySelect2TagWidget] raises
    [TypeError] and leaves the state as it was: no key is signed, nothing
    is stored in the cache, and the key of the widget resolves to nothing. *)
Theorem HeavySelect2TagWidget_build_attrs_registers_nothing (t : Z)
    (extra_attrs : pyobj) (kwargs : attrs_t) :
  let w := sample_widget HeavySelect2TagWidget 7 None None 1 in
  let s := state_of w ∅ in
  build_attrs extra_attrs kwargs s = (Raise TypeError, s)
  /\ widget_id (self (snd (build_attrs extra_attrs kwargs s))) = None
  /\ cache (snd (build_attrs extra_attrs kwargs s)) = ∅
  /\ resolve (signing_dumps t 7)
       (cache (snd (build_attrs extra_attrs kwargs s))) = None.
Proof.
  intros w s.
  assert (Hrun : build_attrs extra_attrs kwargs s = (Raise TypeError, s))
    by reflexivity.
  rewrite Hrun. simpl. repeat split; try reflexivity.
  unfold resolve. destruct (signing_loads (signing_dumps t 7)); reflexivity.
Qed.

(** *** The registry *)

(** [build_attrs] of a heavy widget that is not a tag widget is
    [HeavySelect2Mixin.build_attrs]. *)
Lemma build_attrs_heavy (e : pyobj) (kwargs : attrs_t) (s : st) :
  is_heavy (cls_base (wclass (self s))) = true ->
  is_tag (cls_base (wclass (self s))) = false ->
  build_attrs e kwargs s = HeavySelect2Mixin_build_attrs e kwargs s.
Proof.
  intros Hheavy Htag. unfold build_attrs. rewrite bind_run; simpl.
  now rewrite Htag, Hheavy.
Qed.

Lemma build_attrs_heavy_ok (e : pyobj) (kwargs : attrs_t) (s : st)
    (a : attrs_t) (s' : st) :
  is_heavy (cls_base (wclass (self s))) = true ->
  build_attrs e kwargs s = (Ok a, s') ->
  build_attrs e kwargs s = HeavySelect2Mixin_build_attrs e kwargs s.
Proof.
  intros Hheavy Hrun.
  destruct (is_tag (cls_base (wclass (self s)))) eqn:Htag.
  - exfalso. revert Hrun. unfold build_attrs. rewrite bind_run; simpl.
    rewrite Htag. discriminate.
  - now apply build_attrs_heavy.
Qed.

Section Signing.

(** The contract of [django.core.signing]: [loads] opens what [dumps]
    signed. *)
Hypothesis loads_dumps :
  forall t i, signing_loads (signing_dumps t i) = Some i.

(** When [HeavySelect2Mixin.build_attrs] returns, the key under
    [data-field_id] resolves to the widget as the call left it. *)
Lemma HeavySelect2Mixin_build_attrs_resolves (e : pyobj)
    (kwargs : attrs_t) (s : st) (a : attrs_t) (s' : st) :
  HeavySelect2Mixin_build_attrs e kwargs s = (Ok a, s') ->
  exists key,
    a !! "data-field_id" = Some (AStr key)
    /\ widget_id (self s') = Some key
    /\ wid (self s') = wid (self s)
    /\ resolve key (cache s') = Some (self s').
Proof.
  intros Hrun.
  destruct (HeavySelect2Mixin_build_attrs_ok e kwargs s a s' Hrun)
    as (Hself & Hcache & _ & _ & Hkey).
  eexists. split; [exact Hkey|].
  rewrite Hself at 1 2. split; [reflexivity|]. split; [reflexivity|].
  unfold resolve. rewrite loads_dumps, Hcache. apply lookup_insert_eq.
Qed.


End Signing.

End Build.

(** ** [render_options] *)




Section Render.

Context `{!Django}.





(** C5, at one selected primary key: with the choice [1] selected,
    [render_options] raises [ValueError] and returns no markup: the loop
    unpacks each selected value, a text, into a value and a label, which
    takes a text of exactly two characters. *)
Theorem render_options_selected_key_raises (s : st) :
  render_options [("1", "One")] [SInt 1] s
  = (Raise ValueError, s)
  /\ render_options [("1", "One")] [SStr "1"] s
     = (Raise ValueError, s).
Proof.
  assert (Hone : forall v, force_text v = "1" ->
            render_options [("1", "One")] [v] s
            = (Raise ValueError, s)).
  { intros v Hv.
    assert (Hset : (list_to_set (force_text <$> [v]) : gset string)
                   = {[ "1" ]}).
    { rewrite <- Hv. apply set_eq. intros x.
      rewrite elem_of_list_to_set, list_elem_of_fmap, elem_of_singleton.
      split; [intros (y & -> & Hy); apply list_elem_of_singleton in Hy;
              now subst|].
      intros ->. exists v. split; [reflexivity|]. now left. }
    unfold render_options. rewrite bind_run.
    cbn beta iota delta [get_self fst snd]. rewrite Hset.
    rewrite size_singleton, elements_singleton.
    cbn [render_options_loop]. rewrite size_singleton.
    reflexivity. }
  split; apply Hone; reflexivity.
Qed.

End Render.

(** ** Construction *)

Lemma Select_init_accepts (kw : init_kwargs) (w : widget) :
  kw_data_view kw = None -> kw_userGetValTextFuncName kw = None ->
  kw_model kw = None -> kw_queryset kw = None ->
  kw_search_fields kw = None -> kw_max_results kw = None ->
  kw_other kw = [] ->
  exists w',
    Select_init Pos0 kw w = Ok w'
    /\ wid w' = wid w /\ wclass w' = wclass w
    /\ data_view w' = data_view w
    /\ userGetValTextFuncName w' = userGetValTextFuncName w
    /\ model w' = model w /\ queryset w' = queryset w
    /\ search_fields w' = search_fields w /\ max_results w' = max_results w.
Proof.
  intros H1 H2 H3 H4 H5 H6 H7. unfold Select_init.
  rewrite H1, H2, H3, H4, H5, H6, H7. eexists. split; [reflexivity|].
  simpl. repeat split; reflexivity.
Qed.

Lemma HeavySelect2Mixin_init_accepts (kw : init_kwargs) (w : widget)
    (v : string) :
  kw_data_view kw = Some v ->
  kw_model kw = None -> kw_queryset kw = None ->
  kw_search_fields kw = None -> kw_max_results kw = None ->
  kw_other kw = [] ->
  exists w',
    HeavySelect2Mixin_init kw w = Ok w'
    /\ wid w' = wid w /\ wclass w' = wclass w /\ data_view w' = v
    /\ model w' = model w /\ queryset w' = queryset w
    /\ search_fields w' = search_fields w /\ max_results w' = max_results w.
Proof.
  intros Hv H3 H4 H5 H6 H7. unfold HeavySelect2Mixin_init. rewrite Hv.
  match goal with |- context [Select_init Pos0 ?k ?x] =>
    destruct (Select_init_accepts k x) as (w' & -> & Hw'); try assumption;
      try reflexivity
  end.
  exists w'. split; [reflexivity|]. simpl in Hw'. tauto.
Qed.

(** C8, as amended: a heavy class that is not auto-heavy cannot be
    constructed without [data_view]: [HeavySelect2Mixin.__init__] raises
    [KeyError], or the call itself [TypeError] when positional arguments
    are given. An auto-heavy class constructed without [data_view], other
    arguments being valid, yields a widget whose [data_view] is the central
    view [django_select2_central_json]. Every heavy class constructed with
    [data_view], other arguments being valid, yields a widget that stores
    it. *)
Theorem construct_heavy_data_view (cls : pyclass) (oid : N)
    (args : positional) (kw : init_kwargs) :
  is_heavy (cls_base cls) = true ->
  (is_auto (cls_base cls) = false -> kw_data_view kw = None ->
     exists e, construct cls oid args kw = Raise e
               /\ (args = Pos0 -> e = KeyError "data_view"))
  /\ (is_auto (cls_base cls) = true -> kw_data_view kw = None ->
      valid_heavy_args (cls_base cls) args kw = true ->
      exists w, construct cls oid args kw = Ok w
                /\ data_view w = "django_select2_central_json"
                /\ wid w = oid /\ wclass w = cls)
  /\ (forall v, kw_data_view kw = Some v ->
      valid_heavy_args (cls_base cls) args kw = true ->
      exists w, construct cls oid args kw = Ok w
                /\ data_view w = v /\ wid w = oid /\ wclass w = cls).
Proof.
  intros Hheavy. unfold construct. split; [|split].
  - intros Hauto Hnone. rewrite Hauto, Hheavy.
    destruct args; simpl.
    + unfold HeavySelect2Mixin_init. rewrite Hnone. eauto.
    + eexists; split; [reflexivity|discriminate].
    + eexists; split; [reflexivity|discriminate].
    + eexists; split; [reflexivity|discriminate].
  - intros Hauto Hnone Hvalid. rewrite Hauto.
    unfold valid_heavy_args in Hvalid.
    destruct args; try discriminate.
    destruct (kw_other kw) eqn:Hother; try discriminate.
    unfold AutoHeavySelect2Mixin_init, call_kwargs_only.
    match goal with |- context [HeavySelect2Mixin_init ?k ?x] =>
      destruct (HeavySelect2Mixin_init_accepts k x
                  "django_select2_central_json")
        as (w' & -> & Hw'); try reflexivity
    end.
    { simpl. now rewrite Hnone. }
    { exact Hother. }
    exists w'. split; [reflexivity|]. simpl in Hw'. tauto.
  - intros v Hv Hvalid. unfold valid_heavy_args in Hvalid.
    destruct args; try discriminate.
    destruct (kw_other kw) eqn:Hother; try discriminate.
    destruct (is_auto (cls_base cls)) eqn:Hauto.
    + unfold AutoHeavySelect2Mixin_init, call_kwargs_only.
      match goal with |- context [HeavySelect2Mixin_init ?k ?x] =>
        destruct (HeavySelect2Mixin_init_accepts k x v)
          as (w' & -> & Hw'); try reflexivity
      end.
      { simpl. now rewrite Hv. }
      { exact Hother. }
      exists w'. split; [reflexivity|]. simpl in Hw'. tauto.
    + rewrite Hheavy. simpl in Hvalid. unfold call_kwargs_only.
      destruct (kw_model kw) eqn:H3; try discriminate.
      destruct (kw_queryset kw) eqn:H4; try discriminate.
      destruct (kw_search_fields kw) eqn:H5; try discriminate.
      destruct (kw_max_results kw) eqn:H6; try discriminate.
      destruct (HeavySelect2Mixin_init_accepts kw (new_object cls oid) v)
        as (w' & -> & Hw'); try assumption.
      exists w'. split; [reflexivity|]. simpl in Hw'. tauto.
Qed.

(** ** The theorems at sample inputs *)

(** [get_queryset] on a widget with a queryset, on one with a model only,
    and on one with neither. *)
Lemma get_queryset_cases_witness :
  let with_queryset :=
    state_of
      (sample_widget AutoHeavySelect2Widget 1 (Some sample_rows) None 2) ∅ in
  let with_model :=
    state_of (sample_widget AutoHeavySelect2Widget 1 None
                (Some {| default_manager_all := sample_rows |}) 2) ∅ in
  let bare :=
    state_of (sample_widget AutoHeavySelect2TagWidget 1 None None 2) ∅ in
  get_queryset with_queryset = (Ok sample_rows, with_queryset)
  /\ get_queryset with_model = (Ok sample_rows, with_model)
  /\ exists msg,
       get_queryset bare = (Raise (NotImplementedError msg), bare)
       /\ occurs_in "AutoHeavySelect2TagWidget" msg.
Proof.
  intros with_queryset with_model bare.
  split; [|split].
  - apply (proj1 (get_queryset_cases with_queryset)).
    reflexivity.
  - apply (proj1 (proj2 (get_queryset_cases with_model))
             {| default_manager_all := sample_rows |}); reflexivity.
  - destruct (proj2 (proj2 (get_queryset_cases bare)))
      as (msg & Hrun & _ & Hname & _); [reflexivity|reflexivity|].
    exists msg. split; [exact Hrun|exact Hname].
Defined.

(** [filter_queryset] on a widget with a queryset and no search field. *)
Lemma filter_queryset_empty_search_fields_witness :
  let s :=
    state_of (sample_widget AutoHeavySelect2Widget 1 (Some sample_rows) None 2)
      {[ 2%positive := [] ]} in
  exists msg,
    @filter_queryset sample_django "x" s = (Raise (NotImplementedError msg), s)
    /\ msg = missing_search_fields_message "AutoHeavySelect2Widget"
    /\ occurs_in "AutoHeavySelect2Widget" msg.
Proof.
  intros s.
  apply (@filter_queryset_empty_search_fields sample_django "x" s);
    reflexivity.
Defined.

(** Without a data source a call leaves the list of fields as it is, so
    that it is not empty after as many calls as it has fields, and every
    call raises the error of the missing queryset. *)
Lemma filter_queryset_without_source_keeps_fields :
  let w := sample_widget AutoHeavySelect2Widget 1 None None 2 in
  let s := state_of w {[ 2%positive := ["name"] ]} in
  has_source w = false
  /\ @filter_queryset sample_django "x" s
     = (Raise (NotImplementedError
                 (missing_queryset_message "AutoHeavySelect2Widget")), s)
  /\ heap (@filter_queryset_calls sample_django ["x"] s) !!! 2%positive
     = ["name"]
  /\ @filter_queryset sample_django "x"
       (@filter_queryset_calls sample_django ["x"] s)
     <> (Raise (NotImplementedError
                  (missing_search_fields_message "AutoHeavySelect2Widget")),
         @filter_queryset_calls sample_django ["x"] s).
Proof.
  intros w s. split; [reflexivity|]. split; [reflexivity|].
  split; [reflexivity|]. discriminate.
Defined.

(** Two calls on a widget with a queryset and the fields [name] and
    [email], and a third. *)
Lemma filter_queryset_consumes_search_fields_witness :
  let w := sample_widget AutoHeavySelect2Widget 1 (Some sample_rows) None 2 in
  let s := state_of w {[ 2%positive := ["name"; "email"] ]} in
  let s2 := @filter_queryset_calls sample_django ["x"; "x"] s in
  heap (@filter_queryset_calls sample_django ["x"] s) !!! 2%positive = ["name"]
  /\ heap s2 !!! 2%positive = []
  /\ @filter_queryset sample_django "x" s2
     = (Raise (NotImplementedError
                 (missing_search_fields_message "AutoHeavySelect2Widget")), s2)
  /\ self s2 = w.
Proof.
  intros w s s2.
  destruct (@filter_queryset_consumes_search_fields sample_django
              ["x"; "x"] "x" s)
    as (Hk & Hempty & Hraise & Hself & _); [reflexivity|reflexivity|].
  split; [exact (Hk 1%nat (le_S 1 1 (le_n 1)))|].
  split; [exact Hempty|]. split; [exact Hraise|exact Hself].
Defined.

(** An auto-heavy widget is constructed without [data_view]. *)
Lemma construct_auto_heavy_without_data_view :
  is_heavy AutoHeavySelect2Widget = true
  /\ kw_data_view no_kwargs = None
  /\ construct (library_class AutoHeavySelect2Widget) 3 Pos0 no_kwargs
     = Ok (sample_widget AutoHeavySelect2Widget 3 None None
             mixin_search_fields).
Proof. repeat split; reflexivity. Defined.

(** A [HeavySelect2Widget] without and with [data_view], and an
    [AutoHeavySelect2Widget] without. *)
Lemma construct_heavy_data_view_witness :
  let named :=
    {| kw_data_view := Some "search_endpoint";
       kw_userGetValTextFuncName := None; kw_model := None;
       kw_queryset := None; kw_search_fields := None; kw_max_results := None;
       kw_attrs := None; kw_choices := None; kw_other := [] |} in
  (exists e, construct (library_class HeavySelect2Widget) 3 Pos0 no_kwargs
             = Raise e /\ (Pos0 = Pos0 -> e = KeyError "data_view"))
  /\ (exists w,
        construct (library_class AutoHeavySelect2Widget) 3 Pos0 no_kwargs
        = Ok w
                /\ data_view w = "django_select2_central_json"
                /\ wid w = 3%N
                /\ wclass w = library_class AutoHeavySelect2Widget)
  /\ (exists w, construct (library_class HeavySelect2Widget) 3 Pos0 named = Ok w
                /\ data_view w = "search_endpoint"
                /\ wid w = 3%N
                /\ wclass w = library_class HeavySelect2Widget).
Proof.
  intros named. split; [|split].
  - apply (proj1 (construct_heavy_data_view
                    (library_class HeavySelect2Widget) 3 Pos0 no_kwargs
                    eq_refl)); reflexivity.
  - apply (proj1 (proj2 (construct_heavy_data_view
                    (library_class AutoHeavySelect2Widget) 3 Pos0 no_kwargs
                    eq_refl))); reflexivity.
  - apply (proj2 (proj2 (construct_heavy_data_view
                    (library_class HeavySelect2Widget) 3 Pos0 named
                    eq_refl)) "search_endpoint"); reflexivity.
Defined.


(** * Further properties *)

(** ** Construction, attribute by attribute *)

(** What [HeavySelect2Mixin.__init__] leaves when it returns. *)
Lemma HeavySelect2Mixin_init_inv (kw : init_kwargs) (w w' : widget) :
  HeavySelect2Mixin_init kw w = Ok w' ->
  kw_data_view kw = Some (data_view w')
  /\ kw_model kw = None /\ kw_queryset kw = None
  /\ kw_search_fields kw = None /\ kw_max_results kw = None
  /\ kw_other kw = []
  /\ userGetValTextFuncName w'
     = default "null" (kw_userGetValTextFuncName kw)
  /\ attrs w' = default ∅ (default None (kw_attrs kw))
  /\ choices w' = default [] (kw_choices kw)
  /\ wid w' = wid w /\ wclass w' = wclass w
  /\ is_required w' = is_required w /\ widget_id w' = widget_id w
  /\ model w' = model w /\ queryset w' = queryset w
  /\ search_fields w' = search_fields w /\ max_results w' = max_results w.
Proof.
  unfold HeavySelect2Mixin_init, Select_init.
  destruct (kw_data_view kw) as [v|]; [|discriminate]. simpl.
  destruct (kw_model kw); [discriminate|].
  destruct (kw_queryset kw); [discriminate|].
  destruct (kw_search_fields kw); [discriminate|].
  destruct (kw_max_results kw); [discriminate|].
  destruct (kw_other kw); [|discriminate].
  intros [= <-]. simpl. repeat split; reflexivity.
Qed.

(** What the construction of a heavy class leaves when it returns. *)
Lemma construct_heavy_inv (cls : pyclass) (oid : N) (args : positional)
    (kw : init_kwargs) (w : widget) :
  is_heavy (cls_base cls) = true ->
  construct cls oid args kw = Ok w ->
  args = Pos0 /\ kw_other kw = []
  /\ wid w = oid /\ wclass w = cls
  /\ is_required w = false /\ widget_id w = None
  /\ userGetValTextFuncName w = default "null" (kw_userGetValTextFuncName kw)
  /\ attrs w = default ∅ (default None (kw_attrs kw))
  /\ choices w = default [] (kw_choices kw)
  /\ (if is_auto (cls_base cls) then
        data_view w = default "django_select2_central_json" (kw_data_view kw)
        /\ model w = default (cls_model cls) (kw_model kw)
        /\ queryset w = default (cls_queryset cls) (kw_queryset kw)
        /\ search_fields w
           = default (cls_search_fields cls) (kw_search_fields kw)
        /\ max_results w = default (cls_max_results cls) (kw_max_results kw)
      else
        kw_data_view kw = Some (data_view w)
        /\ kw_model kw = None /\ kw_queryset kw = None
        /\ kw_search_fields kw = None /\ kw_max_results kw = None
        /\ model w = cls_model cls /\ queryset w = cls_queryset cls
        /\ search_fields w = cls_search_fields cls
        /\ max_results w = cls_max_results cls).
Proof.
  intros Hheavy. unfold construct.
  destruct (is_auto (cls_base cls)) eqn:Hauto.
  - unfold AutoHeavySelect2Mixin_init, call_kwargs_only.
    destruct args; try discriminate.
    intros Hinit. apply HeavySelect2Mixin_init_inv in Hinit. simpl in Hinit.
    destruct Hinit as (Hv & _ & _ & _ & _ & Hother & Hu & Ha & Hc & Hid & Hcls
                       & Hreq & Hwid & Hm & Hq & Hsf & Hmr).
    injection Hv as Hv. repeat split; try assumption; try congruence.
  - rewrite Hheavy. unfold call_kwargs_only.
    destruct args; try discriminate.
    intros Hinit. apply HeavySelect2Mixin_init_inv in Hinit. simpl in Hinit.
    destruct Hinit as (Hv & H1 & H2 & H3 & H4 & Hother & Hu & Ha & Hc & Hid
                       & Hcls & Hreq & Hwid & Hm & Hq & Hsf & Hmr).
    repeat split; assumption.
Qed.

Section MoreAutoHeavy.

Context `{!Django}.


(** X2: with a data source and two or more search fields,
    [filter_queryset] raises [TypeError] for every term, and the last
    field is removed from the list all the same; the receiver and the
    cache stay as they were. *)
Theorem filter_queryset_several_fields_raise (term : string) (s : st) :
  has_source (self s) = true ->
  (2 <= length (heap s !!! search_fields (self s)))%nat ->
  let l := search_fields (self s) in
  let s' := snd (filter_queryset term s) in
  fst (filter_queryset term s) = Raise TypeError
  /\ heap s' !!! l = removelast (heap s !!! l)
  /\ length (heap s' !!! l) = (length (heap s !!! l) - 1)%nat
  /\ self s' = self s
  /\ cache s' = cache s.
Proof.
  intros Hsrc Hlen l s'. subst l s'.
  destruct (exists_last (l := heap s !!! search_fields (self s)))
    as (xs & x & Hxs).
  { intros Hnil. rewrite Hnil in Hlen. simpl in Hlen. lia. }
  destruct (filter_queryset_pops term s xs x Hsrc Hxs) as (qs & _ & Hrun).
  rewrite Hrun, Hxs, removelast_last, length_app. simpl.
  rewrite lookup_total_insert_eq.
  destruct xs as [|y ys].
  - rewrite Hxs in Hlen. simpl in Hlen. lia.
  - repeat split; try reflexivity. simpl. lia.
Qed.

(** X3: two auto-heavy widgets constructed from one class without the
    [search_fields] keyword hold the list of the class itself, so a call
    of [filter_queryset] on one removes the last field for the other as
    well. *)
Theorem search_fields_shared_by_instances (cls : pyclass) (oid1 oid2 : N)
    (args1 args2 : positional) (kw1 kw2 : init_kwargs) (w1 w2 : widget)
    (term : string) (s : st) (xs : list string) (x : string) :
  is_auto (cls_base cls) = true ->
  kw_search_fields kw1 = None ->
  kw_search_fields kw2 = None ->
  construct cls oid1 args1 kw1 = Ok w1 ->
  construct cls oid2 args2 kw2 = Ok w2 ->
  has_source w1 = true ->
  heap s !!! cls_search_fields cls = (xs ++ [x])%list ->
  search_fields w1 = cls_search_fields cls
  /\ search_fields w2 = cls_search_fields cls
  /\ heap (snd (filter_queryset term (with_self w1 s))) !!! search_fields w2
     = xs.
Proof.
  intros Hauto Hk1 Hk2 Hc1 Hc2 Hsrc Hxs.
  assert (Hheavy : is_heavy (cls_base cls) = true)
    by (destruct (cls_base cls); try discriminate; reflexivity).
  apply construct_heavy_inv in Hc1 as (_ & _ & _ & _ & _ & _ & _ & _ & _ & H1);
    [|exact Hheavy].
  apply construct_heavy_inv in Hc2 as (_ & _ & _ & _ & _ & _ & _ & _ & _ & H2);
    [|exact Hheavy].
  rewrite Hauto in H1, H2.
  destruct H1 as (_ & _ & _ & Hsf1 & _). destruct H2 as (_ & _ & _ & Hsf2 & _).
  rewrite Hk1 in Hsf1. rewrite Hk2 in Hsf2. simpl in Hsf1, Hsf2.
  split; [exact Hsf1|]. split; [exact Hsf2|].
  rewrite (filter_queryset_step term (with_self w1 s) xs x).
  - simpl. rewrite Hsf1, Hsf2. apply lookup_total_insert_eq.
  - exact Hsrc.
  - simpl. now rewrite Hsf1.
Qed.

End MoreAutoHeavy.

(** ** More on [build_attrs] *)

Lemma setdefault_lookup (k k' : string) (v : attr_value) (d : attrs_t) :
  setdefault k v d !! k'
  = if decide (k = k') then Some (default v (d !! k)) else d !! k'.
Proof.
  unfold setdefault. destruct (decide (k = k')) as [<-|Hne].
  - destruct (d !! k) eqn:Hk; simpl; [exact Hk|apply lookup_insert_eq].
  - destruct (d !! k) eqn:Hk; [reflexivity|]. now apply lookup_insert_ne.
Qed.

Section MoreBuild.

Context `{!Django}.

(** What [Select2Mixin.build_attrs] returns is the dictionary of the widget
    updated with the keywords, with the flag set by default and [class]
    assigned. *)
Lemma Select2Mixin_build_attrs_shape (e : pyobj) (kwargs : attrs_t) (s : st)
    (a : attrs_t) (s' : st) :
  Select2Mixin_build_attrs e kwargs s = (Ok a, s') ->
  exists v,
    a = <["class" := v]>
          (setdefault "data-allowClear"
             (AStr (if is_required (self s) then "true" else "false"))
             (dict_update (attrs (self s)) kwargs)).
Proof.
  unfold Select2Mixin_build_attrs, Widget_build_attrs.
  do 2 (rewrite bind_run; simpl).
  set (d := setdefault _ _ _).
  destruct (d !! "class") as [[c|z|l|view]|].
  - rewrite bind_run; simpl. intros [= <- _]. eauto.
  - rewrite bind_run; simpl. discriminate.
  - rewrite bind_run; simpl. intros [= <- _]. eauto.
  - rewrite bind_run; simpl. destruct (reverse view); simpl.
    + intros [= <- _]. eauto.
    + discriminate.
  - simpl. intros [= <- _]. eauto.
Qed.

Lemma build_attrs_light (e : pyobj) (kwargs : attrs_t) (s : st) :
  is_heavy (cls_base (wclass (self s))) = false ->
  build_attrs e kwargs s = Select2Mixin_build_attrs e kwargs s.
Proof.
  intros Hlight. unfold build_attrs. rewrite bind_run; simpl.
  rewrite Hlight.
  destruct (cls_base (wclass (self s))); try discriminate; reflexivity.
Qed.

Lemma light_build_attrs_class_and_flag_aux (e : pyobj) (kwargs : attrs_t)
    (s : st) (cls : option string) :
  is_heavy (cls_base (wclass (self s))) = false ->
  dict_update (attrs (self s)) kwargs !! "class" = AStr <$> cls ->
  exists a,
    build_attrs e kwargs s = (Ok a, s)
    /\ a !! "class"
       = Some (AStr (match cls with
                     | Some c => c +:+ " django-select2"
                     | None => "django-select2"
                     end))
    /\ a !! "data-allowClear"
       = Some (default (AStr (if is_required (self s) then "true" else "false"))
                 (dict_update (attrs (self s)) kwargs !! "data-allowClear")).
Proof.
  intros Hlight Hcls. rewrite build_attrs_light by exact Hlight.
  exact (Select2Mixin_build_attrs_marker e kwargs s cls Hcls).
Qed.

(** X4: on a light widget whose [class], among its own attributes and the
    keywords, is absent or a text, [build_attrs] returns and leaves the
    state as it was: [class] is the marker [django-select2], after the
    text and a blank when there was one, and [data-allowClear] is the
    value supplied by the widget or a keyword if any, and otherwise [true]
    on a required widget and [false] on another. *)
Theorem light_build_attrs_class_and_flag (e : pyobj) (kwargs : attrs_t)
    (s : st) (cls : option string) :
  is_heavy (cls_base (wclass (self s))) = false ->
  dict_update (attrs (self s)) kwargs !! "class" = AStr <$> cls ->
  exists a,
    build_attrs e kwargs s = (Ok a, s)
    /\ a !! "class"
       = Some (AStr (match cls with
                     | Some c => c +:+ " django-select2"
                     | None => "django-select2"
                     end))
    /\ a !! "data-allowClear"
       = Some (default (AStr (if is_required (self s) then "true" else "false"))
                 (dict_update (attrs (self s)) kwargs !! "data-allowClear")).
Proof.
  intros Hlight Hcls.
  exact (light_build_attrs_class_and_flag_aux e kwargs s cls Hlight Hcls).
Qed.


(** X6: [build_attrs] of a light widget is not idempotent on [class]: when
    the result of a call is passed to another call as the keywords, the
    marker is appended once more, while [data-allowClear] stays. *)
Theorem light_build_attrs_marker_repeats (e : pyobj) (kwargs : attrs_t)
    (s : st) (cls : option string) :
  is_heavy (cls_base (wclass (self s))) = false ->
  dict_update (attrs (self s)) kwargs !! "class" = AStr <$> cls ->
  exists a a' c,
    build_attrs e kwargs s = (Ok a, s)
    /\ a !! "class" = Some (AStr c)
    /\ build_attrs e a s = (Ok a', s)
    /\ a' !! "class" = Some (AStr (c +:+ " django-select2"))
    /\ a' !! "data-allowClear" = a !! "data-allowClear".
Proof.
  intros Hlight Hcls.
  destruct (light_build_attrs_class_and_flag_aux e kwargs s cls Hlight Hcls)
    as (a & Hrun & Hclass & Hflag).
  assert (Hcls' : dict_update (attrs (self s)) a !! "class"
                  = AStr <$> Some (match cls with
                                   | Some c => c +:+ " django-select2"
                                   | None => "django-select2"
                                   end)).
  { unfold dict_update. simpl. now apply lookup_union_Some_l. }
  destruct (light_build_attrs_class_and_flag_aux e a s _ Hlight Hcls')
    as (a' & Hrun' & Hclass' & Hflag').
  exists a, a'. eexists. split; [exact Hrun|]. split; [exact Hclass|].
  split; [exact Hrun'|]. split; [exact Hclass'|].
  rewrite Hflag', Hflag.
  assert (Hkeep : dict_update (attrs (self s)) a !! "data-allowClear"
                  = a !! "data-allowClear").
  { unfold dict_update. rewrite Hflag. now apply lookup_union_Some_l. }
  rewrite Hkeep, Hflag. reflexivity.
Qed.



(** The attributes [HeavySelect2Mixin.build_attrs] returns, from those of
    [Select2Mixin.build_attrs]. *)
Lemma HeavySelect2Mixin_build_attrs_inv (e : pyobj) (kwargs : attrs_t)
    (s : st) (a : attrs_t) (s' : st) :
  HeavySelect2Mixin_build_attrs e kwargs s = (Ok a, s') ->
  let key := signing_dumps (now s) (wid (self s)) in
  let w' := set_widget_id key (self s) in
  exists a0,
    Select2Mixin_build_attrs e kwargs s = (Ok a0, s)
    /\ a = setdefault "data-minimumInputLength" (AInt 2)
             (setdefault "data-ajax--type" (AStr "GET")
                (setdefault "data-ajax--cache" (AStr "true")
                   (setdefault "data-ajax--url" (ALazyUrl (data_view (self s)))
                      (<["data-field_id" := AStr key]> a0))))
    /\ s' = {| self := w'; heap := heap s;
               cache := <[cache_key_of (wid (self s)) := w']> (cache s);
               now := now s |}.
Proof.
  intros Hrun key w'.
  pose proof (HeavySelect2Mixin_build_attrs_run e kwargs s) as Hcases.
  pose proof (Select2Mixin_build_attrs_state e kwargs s) as Hst.
  simpl in Hcases.
  destruct (Select2Mixin_build_attrs e kwargs s) as [[a0|ex] s0];
    simpl in Hcases, Hst; subst s0.
  - rewrite Hcases in Hrun. injection Hrun as <- <-. eauto.
  - rewrite Hcases in Hrun. discriminate.
Qed.

(** X8: when [build_attrs] of a heavy widget returns, [data-field_id] is
    the key signed from the identity of the widget at the time of the
    call, also over a value the caller supplied for it, and each of
    [data-ajax--url], [data-ajax--cache], [data-ajax--type] and
    [data-minimumInputLength] keeps the value the widget or a keyword
    supplied and otherwise is the lazy URL of [data_view], [true], [GET]
    and 2. *)
Theorem heavy_build_attrs_defaults (e : pyobj) (kwargs : attrs_t) (s : st)
    (a : attrs_t) (s' : st) :
  is_heavy (cls_base (wclass (self s))) = true ->
  build_attrs e kwargs s = (Ok a, s') ->
  a !! "data-field_id"
  = Some (AStr (signing_dumps (now s) (wid (self s))))
  /\ (forall k v, (k, v) ∈ heavy_defaults (data_view (self s)) ->
        a !! k
        = Some (default v (dict_update (attrs (self s)) kwargs !! k))).
Proof.
  intros Hheavy Hrun.
  rewrite (build_attrs_heavy_ok e kwargs s a s' Hheavy Hrun) in Hrun.
  destruct (HeavySelect2Mixin_build_attrs_inv e kwargs s a s' Hrun)
    as (a0 & Hlight & -> & _).
  destruct (Select2Mixin_build_attrs_shape e kwargs s a0 s Hlight) as [v0 ->].
  split.
  - repeat (rewrite setdefault_lookup, decide_False by discriminate).
    apply lookup_insert_eq.
  - intros k v Hin. unfold heavy_defaults in Hin.
    repeat (apply elem_of_cons in Hin as [[= -> ->]|Hin]);
      [| | | |inversion Hin];
      repeat (rewrite setdefault_lookup;
              first [rewrite decide_False by discriminate
                    |rewrite decide_True by reflexivity]);
      repeat (rewrite lookup_insert_ne by discriminate);
      rewrite ?setdefault_lookup, ?decide_False by discriminate;
      reflexivity.
Qed.

(** X9: on a heavy widget that is not a tag widget and whose [class] is
    absent or a text, [build_attrs] returns: it sets [widget_id] to the
    key signed from the identity at the time of the call, stores the
    widget so updated in the cache under the prefix followed by the
    identity, emits the signed key as [data-field_id], and leaves the
    heap, the clock and the other attributes of the widget as they were. *)
Theorem heavy_build_attrs_registers (e : pyobj) (kwargs : attrs_t) (s : st)
    (cls : option string) :
  is_heavy (cls_base (wclass (self s))) = true ->
  is_tag (cls_base (wclass (self s))) = false ->
  dict_update (attrs (self s)) kwargs !! "class" = AStr <$> cls ->
  let key := signing_dumps (now s) (wid (self s)) in
  exists a s',
    build_attrs e kwargs s = (Ok a, s')
    /\ a !! "data-field_id" = Some (AStr key)
    /\ self s' = set_widget_id key (self s)
    /\ widget_id (self s') = Some key
    /\ cache s' !! cache_key_of (wid (self s)) = Some (self s')
    /\ cache s' = <[cache_key_of (wid (self s)) := self s']> (cache s)
    /\ heap s' = heap s
    /\ now s' = now s.
Proof.
  intros Hheavy Htag Hcls key.
  rewrite (build_attrs_heavy e kwargs s Hheavy Htag).
  destruct (HeavySelect2Mixin_build_attrs_returns e kwargs s) as (a & s' & Hrun).
  { intros v Hv. rewrite Hcls in Hv. destruct cls as [c|]; [|discriminate].
    injection Hv as <-. eauto. }
  exists a, s'. split; [exact Hrun|].
  destruct (HeavySelect2Mixin_build_attrs_ok e kwargs s a s' Hrun)
    as (Hself & Hcache & Hheap & Hnow & Hkey).
  split; [exact Hkey|]. split; [exact Hself|].
  split; [rewrite Hself; reflexivity|].
  split; [rewrite Hcache; apply lookup_insert_eq|].
  split; [exact Hcache|]. split; assumption.
Qed.




End MoreBuild.

(** ** More on [render_options] *)

Section MoreRender.

Context `{!Django}.



End MoreRender.

(** ** More on the construction *)

(** X15: an auto-heavy widget, once constructed, holds for each of [model],
    [queryset], [search_fields] and [max_results] the value of the keyword
    when the keyword was given, also when it was given as [None], and the
    attribute of its class otherwise; its [data_view] is the keyword or
    else the central view; it has the identity and the class it was
    constructed with, is not required and has no [widget_id] yet. *)
Theorem construct_auto_heavy_configuration (cls : pyclass) (oid : N)
    (args : positional) (kw : init_kwargs) (w : widget) :
  is_auto (cls_base cls) = true ->
  construct cls oid args kw = Ok w ->
  model w = default (cls_model cls) (kw_model kw)
  /\ queryset w = default (cls_queryset cls) (kw_queryset kw)
  /\ search_fields w = default (cls_search_fields cls) (kw_search_fields kw)
  /\ max_results w = default (cls_max_results cls) (kw_max_results kw)
  /\ data_view w = default "django_select2_central_json" (kw_data_view kw)
  /\ userGetValTextFuncName w = default "null" (kw_userGetValTextFuncName kw)
  /\ wid w = oid /\ wclass w = cls
  /\ is_required w = false /\ widget_id w = None.
Proof.
  intros Hauto Hrun.
  assert (Hheavy : is_heavy (cls_base cls) = true)
    by (destruct (cls_base cls); try discriminate; reflexivity).
  destruct (construct_heavy_inv cls oid args kw w Hheavy Hrun)
    as (_ & _ & Hid & Hcls & Hreq & Hwid & Hu & _ & _ & Hrest).
  rewrite Hauto in Hrest. destruct Hrest as (Hv & Hm & Hq & Hsf & Hmr).
  repeat split; assumption.
Qed.

(** X16: the construction of a heavy class returns exactly when no
    positional argument is given, no keyword is unknown, the four keywords
    of the auto-heavy mixin are given to an auto-heavy class only, and
    [data_view] is given or the class is auto-heavy. When it fails, it
    raises [KeyError] for [data_view] exactly when the class is not
    auto-heavy and was called without positional arguments and without
    [data_view], and [TypeError] in every other case. *)
Theorem construct_heavy_succeeds_iff (cls : pyclass) (oid : N)
    (args : positional) (kw : init_kwargs) :
  is_heavy (cls_base cls) = true ->
  is_ok (construct cls oid args kw)
  = valid_heavy_args (cls_base cls) args kw
    && (is_auto (cls_base cls) || bool_decide (is_Some (kw_data_view kw)))
  /\ (forall e, construct cls oid args kw = Raise e ->
        if negb (is_auto (cls_base cls))
           && match args with Pos0 => true | _ => false end
           && negb (bool_decide (is_Some (kw_data_view kw)))
        then e = KeyError "data_view"
        else e = TypeError).
Proof.
  intros Hheavy. unfold construct, valid_heavy_args.
  destruct (is_auto (cls_base cls)) eqn:Hauto.
  - unfold AutoHeavySelect2Mixin_init, call_kwargs_only,
      HeavySelect2Mixin_init, Select_init.
    destruct args; simpl; try (split; [reflexivity|now intros e [= <-]]).
    destruct (kw_other kw); simpl;
      (split; [reflexivity|intros e; try discriminate; now intros [= <-]]).
  - rewrite Hheavy.
    unfold call_kwargs_only, HeavySelect2Mixin_init, Select_init.
    destruct args; simpl; try (split; [reflexivity|now intros e [= <-]]).
    destruct (kw_data_view kw) as [v|]; simpl.
    + destruct (kw_model kw), (kw_queryset kw), (kw_search_fields kw),
        (kw_max_results kw), (kw_other kw); simpl;
        (split; [reflexivity|intros e; try discriminate; now intros [= <-]]).
    + split; [|now intros e [= <-]].
      destruct (kw_other kw); [|reflexivity].
      destruct (kw_model kw), (kw_queryset kw), (kw_search_fields kw),
        (kw_max_results kw); reflexivity.
Qed.

Section Compose.

Context `{!Django}.

(** X17: construction and rendering compose: a widget of a heavy class
    other than the tag classes, constructed with attributes whose [class]
    is absent or a text, renders its attributes at once:
    [build_attrs] returns with the marker class, with [data-allowClear]
    [false] unless the attributes say otherwise (a fresh widget is not
    required), with the lazy URL of the [data_view] given at construction,
    or of the central view, unless the attributes give a URL, and with the
    key signed from the identity; the widget is in the cache under its
    key. *)
Theorem constructed_heavy_widget_renders (cls : pyclass) (oid : N)
    (args : positional) (kw : init_kwargs) (w : widget) (s : st)
    (c : option string) :
  is_heavy (cls_base cls) = true ->
  is_tag (cls_base cls) = false ->
  construct cls oid args kw = Ok w ->
  default ∅ (default None (kw_attrs kw)) !! "class" = AStr <$> c ->
  exists a s',
    build_attrs PyNone ∅ (with_self w s) = (Ok a, s')
    /\ a !! "class"
       = Some (AStr (match c with
                     | Some c => c +:+ " django-select2"
                     | None => "django-select2"
                     end))
    /\ a !! "data-allowClear"
       = Some (default (AStr "false") (attrs w !! "data-allowClear"))
    /\ a !! "data-ajax--url"
       = Some (default
                 (ALazyUrl
                    (default "django_select2_central_json" (kw_data_view kw)))
                 (attrs w !! "data-ajax--url"))
    /\ a !! "data-field_id" = Some (AStr (signing_dumps (now s) oid))
    /\ wid (self s') = oid
    /\ cache s' !! cache_key_of oid = Some (self s').
Proof.
  intros Hheavy Htag Hnew Hclass.
  destruct (construct_heavy_inv cls oid args kw w Hheavy Hnew)
    as (_ & _ & Hid & Hcls & Hreq & _ & _ & Hattrs & _ & Hrest).
  assert (Hview : data_view w
                  = default "django_select2_central_json" (kw_data_view kw)).
  { destruct (is_auto (cls_base cls)).
    - apply Hrest.
    - destruct Hrest as (-> & _). reflexivity. }
  assert (Hd : dict_update (attrs w) ∅ = attrs w)
    by (unfold dict_update; apply (left_id_L ∅ (∪))).
  set (s0 := with_self w s).
  assert (Hcls0 : dict_update (attrs (self s0)) ∅ !! "class" = AStr <$> c)
    by (simpl; rewrite Hd, Hattrs; exact Hclass).
  rewrite (build_attrs_heavy PyNone ∅ s0)
    by (simpl; rewrite Hcls; assumption).
  destruct (Select2Mixin_build_attrs_marker PyNone ∅ s0 c Hcls0)
    as (a0 & Hlight & Ha0class & Ha0flag).
  pose proof (HeavySelect2Mixin_build_attrs_run PyNone ∅ s0) as Hrun.
  simpl in Hrun. rewrite Hlight in Hrun. simpl in Hrun.
  eexists _, _. split; [exact Hrun|].
  destruct (Select2Mixin_build_attrs_shape PyNone ∅ s0 a0 s0 Hlight)
    as [v0 Hshape].
  simpl in Hshape. rewrite Hd, Hreq in Hshape.
  simpl in Ha0flag. rewrite Hd, Hreq in Ha0flag.
  split; [|split; [|split; [|split; [|split]]]].
  - repeat (rewrite setdefault_lookup, decide_False by discriminate).
    rewrite lookup_insert_ne by discriminate. exact Ha0class.
  - repeat (rewrite setdefault_lookup, decide_False by discriminate).
    rewrite lookup_insert_ne by discriminate. exact Ha0flag.
  - repeat (rewrite setdefault_lookup, decide_False by discriminate).
    rewrite setdefault_lookup, decide_True by reflexivity.
    rewrite lookup_insert_ne by discriminate.
    rewrite Hshape, lookup_insert_ne by discriminate.
    rewrite setdefault_lookup, decide_False by discriminate.
    now rewrite Hview.
  - repeat (rewrite setdefault_lookup, decide_False by discriminate).
    rewrite lookup_insert_eq. simpl. now rewrite Hid.
  - simpl. exact Hid.
  - simpl. rewrite Hid. apply lookup_insert_eq.
Qed.

End Compose.

(** ** The package *)

(** X18: loading the package hands at most one deprecation warning to
    [warnings.warn], whatever the settings. With a true
    [GENERATE_RANDOM_SELECT2_ID] it is the warning for that setting, and
    the multi-process variable ends as [False] whatever the settings say;
    otherwise with a true [ENABLE_SELECT2_MULTI_PROCESS_SUPPORT] it is the
    warning for that one; otherwise, and without Django or with settings
    that are not configured, there is none. *)
Theorem load_package_warns_at_most_once (settings : django_settings) :
  let p := fst (load_package settings) in
  let warned := snd (load_package settings) in
  (length warned <= 1)%nat
  /\ (truthy (__GENERATE_RANDOM_ID p) = true ->
      warned = [random_id_deprecated]
      /\ __ENABLE_MULTI_PROCESS_SUPPORT p = VBool false)
  /\ (truthy (__GENERATE_RANDOM_ID p) = false ->
      warned = if truthy (__ENABLE_MULTI_PROCESS_SUPPORT p)
               then [multi_process_deprecated] else [])
  /\ (match settings with Configured _ => False | _ => True end ->
      warned = [] /\ p = package_defaults).
Proof.
  destruct settings as [| |m]; simpl.
  - repeat split; try reflexivity; try discriminate; try lia.
  - repeat split; try reflexivity; try discriminate; try lia.
  - destruct (truthy (getattr m "GENERATE_RANDOM_SELECT2_ID" (VBool false)))
      eqn:Hrandom; simpl.
    + rewrite Hrandom. repeat split; try reflexivity; try discriminate;
        try contradiction; try lia.
    + rewrite Hrandom.
      destruct (truthy (getattr m "ENABLE_SELECT2_MULTI_PROCESS_SUPPORT"
                          (VBool false))) eqn:Hmulti; simpl;
        repeat split; try reflexivity; try discriminate; try contradiction;
        try lia.
Qed.

(** X19: the memcache settings never lead to a warning: the message about
    [SELECT2_MEMCACHE_HOST] is built and not passed to [warnings.warn], so
    the warnings of a load are the same whatever the three memcache
    settings are set to; the settings themselves are stored as given, the
    time to live being 900 when it is not set. *)
Theorem load_package_memcache_never_warns (m : gmap string setting_value)
    (host port ttl : setting_value) :
  let m' := <["SELECT2_MEMCACHE_HOST" := host]>
              (<["SELECT2_MEMCACHE_PORT" := port]>
                 (<["SELECT2_MEMCACHE_TTL" := ttl]> m)) in
  snd (load_package (Configured m')) = snd (load_package (Configured m))
  /\ __MEMCACHE_HOST (fst (load_package (Configured m'))) = host
  /\ __MEMCACHE_PORT (fst (load_package (Configured m'))) = port
  /\ __MEMCACHE_TTL (fst (load_package (Configured m'))) = ttl
  /\ (m !! "SELECT2_MEMCACHE_TTL" = None ->
      __MEMCACHE_TTL (fst (load_package (Configured m))) = VInt 900)
  /\ (forall w, w ∈ snd (load_package (Configured m')) ->
        w = random_id_deprecated \/ w = multi_process_deprecated).
Proof.
  intros m'.
  assert (Hother : forall k d,
             k <> "SELECT2_MEMCACHE_HOST" -> k <> "SELECT2_MEMCACHE_PORT" ->
             k <> "SELECT2_MEMCACHE_TTL" -> getattr m' k d = getattr m k d).
  { intros k d H1 H2 H3. unfold getattr, m'.
    now rewrite !lookup_insert_ne by congruence. }
  assert (Hwarn : snd (load_package (Configured m'))
                  = snd (load_package (Configured m))).
  { unfold load_package.
    rewrite (Hother "GENERATE_RANDOM_SELECT2_ID") by discriminate.
    rewrite (Hother "ENABLE_SELECT2_MULTI_PROCESS_SUPPORT") by discriminate.
    destruct (truthy (getattr m "GENERATE_RANDOM_SELECT2_ID" (VBool false)));
      reflexivity. }
  split; [exact Hwarn|].
  split; [|split; [|split; [|split]]].
  - unfold load_package.
    destruct (truthy (getattr m' "GENERATE_RANDOM_SELECT2_ID" (VBool false)));
      simpl; unfold getattr, m'; now rewrite lookup_insert_eq.
  - unfold load_package.
    destruct (truthy (getattr m' "GENERATE_RANDOM_SELECT2_ID" (VBool false)));
      simpl; unfold getattr, m';
      now rewrite lookup_insert_ne, lookup_insert_eq by discriminate.
  - unfold load_package.
    destruct (truthy (getattr m' "GENERATE_RANDOM_SELECT2_ID" (VBool false)));
      simpl; unfold getattr, m';
      now rewrite !lookup_insert_ne, lookup_insert_eq by discriminate.
  - intros Hnone. unfold load_package.
    destruct (truthy (getattr m "GENERATE_RANDOM_SELECT2_ID" (VBool false)));
      simpl; unfold getattr; now rewrite Hnone.
  - intros w. rewrite Hwarn. unfold load_package.
    destruct (truthy (getattr m "GENERATE_RANDOM_SELECT2_ID" (VBool false)));
      simpl.
    + intros Hin. apply list_elem_of_singleton in Hin. now left.
    + destruct (truthy (getattr m "ENABLE_SELECT2_MULTI_PROCESS_SUPPORT"
                          (VBool false))); simpl; intros Hin.
      * apply list_elem_of_singleton in Hin. now right.
      * inversion Hin.
Qed.

(** ** The further properties at sample inputs *)


(** Three fields. *)
Lemma filter_queryset_several_fields_raise_witness :
  let w := sample_widget AutoHeavySelect2Widget 1 (Some sample_rows) None 2 in
  let s := state_of w {[ 2%positive := ["name"; "email"; "phone"] ]} in
  fst (@filter_queryset sample_django "x" s) = Raise TypeError
  /\ heap (snd (@filter_queryset sample_django "x" s)) !!! 2%positive
     = removelast (heap s !!! 2%positive).
Proof.
  intros w s.
  destruct (@filter_queryset_several_fields_raise sample_django "x" s)
    as (Hraise & Hpop & _); [reflexivity|vm_compute; lia|].
  split; [exact Hraise|exact Hpop].
Defined.

(** Two instances of a subclass that sets [queryset] and
    [search_fields = [name]] in its body. *)
Lemma search_fields_shared_by_instances_witness :
  let cls := sample_subclass [] 2 in
  exists w1 w2,
    construct cls 3 Pos0 no_kwargs = Ok w1
    /\ construct cls 4 Pos0 no_kwargs = Ok w2
    /\ heap (snd (@filter_queryset sample_django "x"
                    (with_self w1 (state_of w2 {[ 2%positive := ["name"] ]}))))
         !!! search_fields w2 = [].
Proof.
  intros cls. eexists _, _.
  split; [reflexivity|]. split; [reflexivity|].
  apply (@search_fields_shared_by_instances sample_django cls 3 4 Pos0 Pos0
           no_kwargs no_kwargs _ _ "x" _ [] "name"); reflexivity.
Defined.

(** A [Select2Widget] called with the class [wide] as a keyword. *)
Lemma light_build_attrs_class_and_flag_witness :
  let s := state_of (sample_widget Select2Widget 1 None None 1) ∅ in
  exists a,
    @build_attrs sample_django PyNone {[ "class" := AStr "wide" ]} s = (Ok a, s)
    /\ a !! "class" = Some (AStr "wide django-select2").
Proof.
  intros s.
  destruct (@light_build_attrs_class_and_flag sample_django PyNone
              {[ "class" := AStr "wide" ]} s (Some "wide"))
    as (a & Hrun & Hclass & _); [reflexivity|reflexivity|].
  exists a. split; [exact Hrun|exact Hclass].
Defined.


(** A [Select2Widget] with the class [wide], rendered from its own result. *)
Lemma light_build_attrs_marker_repeats_witness :
  let s := state_of (sample_widget Select2Widget 1 None None 1) ∅ in
  exists a a',
    @build_attrs sample_django PyNone {[ "class" := AStr "wide" ]} s = (Ok a, s)
    /\ @build_attrs sample_django PyNone a s = (Ok a', s)
    /\ exists c, a !! "class" = Some (AStr c)
                 /\ a' !! "class" = Some (AStr (c +:+ " django-select2")).
Proof.
  intros s.
  destruct (@light_build_attrs_marker_repeats sample_django PyNone
              {[ "class" := AStr "wide" ]} s (Some "wide"))
    as (a & a' & c & Hrun & Hclass & Hrun' & Hclass' & _);
    [reflexivity|reflexivity|].
  exists a, a'. split; [exact Hrun|]. split; [exact Hrun'|].
  exists c. split; [exact Hclass|exact Hclass'].
Defined.

(** A [HeavySelect2Widget] called with its own minimum input length. *)
Lemma heavy_build_attrs_defaults_witness :
  let s := state_of (sample_widget HeavySelect2Widget 7 None None 1) ∅ in
  let r := @build_attrs sample_django PyNone
             {[ "data-minimumInputLength" := AInt 3 ]} s in
  let a := match fst r with Ok a => a | Raise _ => ∅ end in
  is_ok (fst r) = true
  /\ a !! "data-field_id" = Some (AStr "7")
  /\ a !! "data-minimumInputLength" = Some (AInt 3)
  /\ a !! "data-ajax--type" = Some (AStr "GET").
Proof.
  intros s r a.
  assert (Hok : is_ok (fst r) = true) by (vm_compute; reflexivity).
  destruct (@heavy_build_attrs_defaults sample_django PyNone
              {[ "data-minimumInputLength" := AInt 3 ]} s a (snd r) eq_refl
              (result_pair_ok r ∅ Hok))
    as (Hid & Hdefaults).
  split; [exact Hok|]. split; [exact Hid|]. split.
  - rewrite (Hdefaults "data-minimumInputLength" (AInt 2)); [reflexivity|].
    unfold heavy_defaults. do 3 right. left.
  - rewrite (Hdefaults "data-ajax--type" (AStr "GET")); [reflexivity|].
    unfold heavy_defaults. do 2 right. left.
Defined.

(** A [HeavySelect2Widget] without a class. *)
Lemma heavy_build_attrs_registers_witness :
  let s := state_of (sample_widget HeavySelect2Widget 7 None None 1) ∅ in
  exists a s',
    @build_attrs sample_django PyNone ∅ s = (Ok a, s')
    /\ a !! "data-field_id" = Some (AStr "7")
    /\ widget_id (self s') = Some "7"
    /\ cache s' !! "select2_7" = Some (self s').
Proof.
  intros s.
  destruct (@heavy_build_attrs_registers sample_django PyNone ∅ s None)
    as (a & s' & Hrun & Hid & _ & Hwid & Hcache & _);
    [reflexivity|reflexivity|reflexivity|].
  exists a, s'. split; [exact Hrun|]. split; [exact Hid|].
  split; [exact Hwid|exact Hcache].
Defined.




(** An [AutoHeavySelect2Widget] constructed with a queryset. *)
Lemma construct_auto_heavy_configuration_witness :
  exists w,
    construct (library_class AutoHeavySelect2Widget) 3 Pos0
      (kwargs_queryset sample_rows) = Ok w
    /\ queryset w = Some sample_rows
    /\ model w = None
    /\ search_fields w = mixin_search_fields
    /\ max_results w = 25
    /\ data_view w = "django_select2_central_json".
Proof.
  eexists. split; [reflexivity|].
  destruct (construct_auto_heavy_configuration
              (library_class AutoHeavySelect2Widget) 3 Pos0
              (kwargs_queryset sample_rows) _ eq_refl eq_refl)
    as (Hm & Hq & Hsf & Hmr & Hv & _).
  split; [exact Hq|]. split; [exact Hm|]. split; [exact Hsf|].
  split; [exact Hmr|exact Hv].
Defined.

(** A [HeavySelect2Widget] with [data_view], without it, and with a
    queryset, which only the auto-heavy classes take. *)
Lemma construct_heavy_succeeds_iff_witness :
  is_ok (construct (library_class HeavySelect2Widget) 3 Pos0
           (kwargs_data_view "search_endpoint")) = true
  /\ is_ok (construct (library_class HeavySelect2Widget) 3 Pos0 no_kwargs)
     = false
  /\ is_ok (construct (library_class HeavySelect2Widget) 3 Pos0
              (kwargs_queryset sample_rows)) = false.
Proof.
  split; [|split].
  - exact (proj1 (construct_heavy_succeeds_iff
                    (library_class HeavySelect2Widget) 3 Pos0
                    (kwargs_data_view "search_endpoint") eq_refl)).
  - exact (proj1 (construct_heavy_succeeds_iff
                    (library_class HeavySelect2Widget) 3 Pos0
                    no_kwargs eq_refl)).
  - exact (proj1 (construct_heavy_succeeds_iff
                    (library_class HeavySelect2Widget) 3 Pos0
                    (kwargs_queryset sample_rows) eq_refl)).
Defined.

(** A [HeavySelect2Widget] constructed for the view [search_endpoint] and
    rendered. *)
Lemma constructed_heavy_widget_renders_witness :
  let cls := library_class HeavySelect2Widget in
  exists w a s',
    construct cls 3 Pos0 (kwargs_data_view "search_endpoint") = Ok w
    /\ @build_attrs sample_django PyNone ∅ (with_self w (state_of w ∅))
       = (Ok a, s')
    /\ a !! "class" = Some (AStr "django-select2")
    /\ a !! "data-ajax--url" = Some (ALazyUrl "search_endpoint")
    /\ a !! "data-field_id" = Some (AStr "3").
Proof.
  intros cls. eexists. 
  destruct (@constructed_heavy_widget_renders sample_django cls 3 Pos0
              (kwargs_data_view "search_endpoint") _
              (state_of (new_object cls 3) ∅) None
              eq_refl eq_refl eq_refl eq_refl)
    as (a & s' & Hrun & Hclass & _ & Hurl & Hid & _).
  exists a, s'. split; [reflexivity|]. split; [exact Hrun|].
  split; [exact Hclass|]. split; [exact Hurl|exact Hid].
Defined.
